(** * Habit coach worker: the per-user [HabitStore] actor of [src/worker.ts]

    A shallow embedding of the Durable Object [HabitStore] (its [fetch]
    handler, [loadState], [saveState]) and of the statistics function
    [computeStats], followed by the properties of the four operations
    (get state, create habit, log completion, coach). *)

From Stdlib Require Import List ZArith NArith Bool String Ascii Lia.
From Stdlib Require Import Floats.SpecFloat.
Import ListNotations.

Set Warnings "-register-all".
Local Open Scope Z_scope.

(** ** JavaScript strings

    A string is its sequence of UTF-16 code units.  [lit] embeds an ASCII
    literal of the source. *)

Definition jsstring := list N.

Definition lit (s : string) : jsstring :=
  map N_of_ascii (list_ascii_of_string s).

Fixpoint str_eqb (a b : jsstring) : bool :=
  match a, b with
  | [], [] => true
  | x :: a', y :: b' => N.eqb x y && str_eqb a' b'
  | _, _ => false
  end.

(** [String.prototype.trim] strips WhiteSpace and LineTerminator code
    points from both ends: TAB, LF, VT, FF, CR, SP, NBSP, U+1680,
    U+2000..U+200A, U+2028, U+2029, U+202F, U+205F, U+3000, U+FEFF. *)
Definition isWhiteSpace (c : N) : bool :=
  ((9 <=? c) && (c <=? 13) || (c =? 32) || (c =? 160) || (c =? 5760)
   || (8192 <=? c) && (c <=? 8202) || (c =? 8232) || (c =? 8233)
   || (c =? 8239) || (c =? 8287) || (c =? 12288) || (c =? 65279))%N.

Fixpoint trimStart (s : jsstring) : jsstring :=
  match s with
  | c :: s' => if isWhiteSpace c then trimStart s' else s
  | [] => []
  end.

Definition trimEnd (s : jsstring) : jsstring := rev (trimStart (rev s)).

Definition trim (s : jsstring) : jsstring := trimEnd (trimStart s).

(** [strs.join(sep)] *)
Fixpoint join (sep : jsstring) (strs : list jsstring) : jsstring :=
  match strs with
  | [] => []
  | [s] => s
  | s :: rest => s ++ sep ++ join sep rest
  end.

(** ** JavaScript numbers: IEEE 754 binary64, round to nearest even *)

Definition number := spec_float.

Definition prec : Z := 53.
Definition emax : Z := 1024.

Definition NaN : number := S754_nan.
Definition Number_of_Z (z : Z) : number := binary_normalize prec emax z 0 false.
Definition Number_of_nat (n : nat) : number := Number_of_Z (Z.of_nat n).

Definition num_mul : number -> number -> number := SFmul prec emax.
Definition num_div : number -> number -> number := SFdiv prec emax.
Definition num_ltb : number -> number -> bool := SFltb.
Definition num_leb : number -> number -> bool := SFleb.

(** [Math.min(x, y)]: NaN if an operand is NaN, else the smaller one, -0
    counting as smaller than +0. *)
Definition Math_min (x y : number) : number :=
  match SFcompare x y with
  | None => NaN
  | Some Lt => x
  | Some Gt => y
  | Some Eq => match x with S754_zero true => x | _ => y end
  end.

(** ** Runtime values

    The values a parsed JSON body is made of, and [undefined], which a
    property read yields for an absent property.  The TypeScript casts of
    the handler ([as { name?: string; ... }]) are erased at run time, so
    the fields of a body, and with them the fields of a stored habit that
    are copied from it, hold any such value. *)

Inductive value : Type :=
  | VUndefined
  | VNull
  | VBool (b : bool)
  | VNum (x : number)
  | VStr (s : jsstring)
  | VArr (elems : list value)
  | VObj (props : list (jsstring * value)).

(** ToBoolean: the falsy values are undefined, null, false, +0, -0, NaN
    and the empty string. *)
Definition truthy (v : value) : bool :=
  match v with
  | VUndefined | VNull => false
  | VBool b => b
  | VNum (S754_zero _) | VNum S754_nan => false
  | VNum _ => true
  | VStr [] => false
  | VStr _ => true
  | VArr _ | VObj _ => true
  end.

(** [v === s] for a string [s]. *)
Definition strict_eq_str (v : value) (s : jsstring) : bool :=
  match v with
  | VStr s' => str_eqb s' s
  | _ => false
  end.

Fixpoint lookup (k : jsstring) (props : list (jsstring * value)) : value :=
  match props with
  | [] => VUndefined
  | (k', v) :: rest => if str_eqb k' k then v else lookup k rest
  end.

(** [o.k] for one of the keys the handler reads ([name], [frequency],
    [targetPerPeriod], [period], [habitId], [message]): a TypeError
    ([None]) on null and undefined, the own property of an object, and
    undefined on a boolean, number, string or array, none of which has a
    property of these names. *)
Definition Get (o : value) (k : jsstring) : option value :=
  match o with
  | VUndefined | VNull => None
  | VObj props => Some (lookup k props)
  | _ => Some VUndefined
  end.

(** ** Data model

    [createdAt] and [timestamp] are ISO strings in the source, always
    written as [new Date().toISOString()] and read back only through
    [new Date(s).getTime()]; they are modelled by the instant they encode,
    in milliseconds since the epoch.  Instants are integers below 2^53 in
    absolute value, on which the double arithmetic of [now - 7*24*60*60*1000]
    and [>=] is exact, so they are integers here. *)

Record Habit := {
  id : jsstring;
  name : value;
  frequency : value;
  targetPerPeriod : value;
  period : value;
  createdAt : Z
}.

Record HabitLog := {
  log_id : jsstring;
  habitId : value;
  timestamp : Z
}.

Record UserState := {
  habits : list Habit;
  logs : list HabitLog
}.

Definition defaultState : UserState := {| habits := []; logs := [] |}.

Record Stat := {
  stat_habitId : jsstring;
  stat_name : value;
  completedLast7Days : nat;
  targetPerWeek : value;
  completionRate : number
}.

(** ** Partial computations: [None] is a thrown exception *)

Definition obind {A B} (c : option A) (k : A -> option B) : option B :=
  match c with
  | Some a => k a
  | None => None
  end.

Notation "x <-? c ;; k" := (obind c (fun x => k))
  (at level 61, c at next level, right associativity).

(** [xs.map(f)] for a callback that may throw: the first exception ends
    the traversal. *)
Fixpoint map_throwing {A B} (f : A -> option B) (xs : list A) : option (list B) :=
  match xs with
  | [] => Some []
  | x :: rest =>
      y <-? f x ;;
      ys <-? map_throwing f rest ;;
      Some (y :: ys)
  end.

(** ** The Stats Engine *)

Section Platform.

(** Conversions of the language that the program relies on and does not
    define: the numeric value of a string (StringToNumber), the primitive
    an array or object converts to (a string, or a TypeError when neither
    [valueOf] nor [toString] is callable), and the formatting of numbers
    by [Number::toString] and by [toFixed(0)]. *)
Variable StringToNumber : jsstring -> number.
Variable ObjectToString : value -> option jsstring.
Variable NumberToString : number -> jsstring.
Variable toFixed0 : number -> jsstring.

Definition ToNumber (v : value) : option number :=
  match v with
  | VUndefined => Some NaN
  | VNull => Some (S754_zero false)
  | VBool b => Some (if b then Number_of_Z 1 else S754_zero false)
  | VNum x => Some x
  | VStr s => Some (StringToNumber s)
  | VArr _ | VObj _ => s <-? ObjectToString v ;; Some (StringToNumber s)
  end.

Definition ToString (v : value) : option jsstring :=
  match v with
  | VUndefined => Some (lit "undefined")
  | VNull => Some (lit "null")
  | VBool b => Some (if b then lit "true" else lit "false")
  | VNum x => Some (NumberToString x)
  | VStr s => Some s
  | VArr _ | VObj _ => ObjectToString v
  end.

(** [7 * 24 * 60 * 60 * 1000] *)
Definition week_ms : Z := 7 * 24 * 60 * 60 * 1000.

(** The callback of [state.logs.filter] in [computeStats]. *)
Definition in_last7 (weekAgo : Z) (habit : Habit) (log : HabitLog) : bool :=
  strict_eq_str (habitId log) (id habit) && (weekAgo <=? timestamp log).

(** The callback of [state.habits.map] in [computeStats]. *)
Definition habit_stat (state : UserState) (weekAgo : Z) (habit : Habit)
  : option Stat :=
  let completed := List.length (filter (in_last7 weekAgo habit) (logs state)) in
  tpw <-? (if strict_eq_str (period habit) (lit "week")
           then Some (targetPerPeriod habit)
           else t <-? ToNumber (targetPerPeriod habit) ;;
                Some (VNum (num_mul t (Number_of_Z 7)))) ;;
  t <-? ToNumber tpw ;;
  let rate :=
    if num_ltb (S754_zero false) t
    then Math_min (Number_of_Z 1) (num_div (Number_of_nat completed) t)
    else S754_zero false in
  Some {| stat_habitId := id habit;
          stat_name := name habit;
          completedLast7Days := completed;
          targetPerWeek := tpw;
          completionRate := rate |}.

(** [computeStats(state)], with [now] the reading of [Date.now()]. *)
Definition computeStats (state : UserState) (now : Z) : option (list Stat) :=
  let weekAgo := now - week_ms in
  map_throwing (habit_stat state weekAgo) (habits state).

(** ** The actor's world and its effects

    [storage] is the value the Durable Object storage holds under the key
    ["state"] ([None] when the key is unset); [AI_calls] records, oldest
    first, the (model, prompt) pairs passed to [env.AI.run]. *)

Record World := {
  storage : option UserState;
  AI_calls : list (jsstring * jsstring)
}.

(** What one request reads from its environment: the result of
    [crypto.randomUUID()], the instant of [new Date()], the instant
    [Date.now()] returns inside [computeStats], and the answer of the
    text-generation service to a prompt ([None] when the call rejects). *)
Record Runtime := {
  randomUUID : jsstring;
  Date_new : Z;
  Date_now : Z;
  AI_reply : jsstring -> option jsstring
}.

Inductive completion (A : Type) : Type :=
  | Normal (a : A)
  | Throw.
Arguments Normal {A} a.
Arguments Throw {A}.

(** An effectful computation: it ends normally or by throwing, and in both
    cases leaves a world behind. *)
Definition Eff (A : Type) : Type := World -> completion A * World.

Definition ret {A} (a : A) : Eff A := fun w => (Normal a, w).

Definition throw {A} : Eff A := fun w => (Throw, w).

Definition bind {A B} (c : Eff A) (k : A -> Eff B) : Eff B :=
  fun w =>
    match c w with
    | (Normal a, w') => k a w'
    | (Throw, w') => (Throw, w')
    end.

Notation "x <- c ;; k" := (bind c (fun x => k))
  (at level 61, c at next level, right associativity).
Notation "c ;;; k" := (bind c (fun _ => k))
  (at level 61, right associativity).

Definition lift {A} (c : option A) : Eff A :=
  match c with
  | Some a => ret a
  | None => throw
  end.

(** [this.state.storage.get("state")] and [this.state.storage.put("state", s)] *)
Definition storage_get : Eff (option UserState) :=
  fun w => (Normal (storage w), w).

Definition storage_put (s : UserState) : Eff unit :=
  fun w => (Normal tt, {| storage := Some s; AI_calls := AI_calls w |}).

Definition AI_model : jsstring := lit "@cf/meta/llama-3.3-70b-instruct-fp8-fast".

(** [this.env.AI.run(model, { prompt })] *)
Definition AI_run (rt : Runtime) (model prompt : jsstring) : Eff jsstring :=
  fun w =>
    let w' := {| storage := storage w;
                 AI_calls := AI_calls w ++ [(model, prompt)] |} in
    match AI_reply rt prompt with
    | Some reply => (Normal reply, w')
    | None => (Throw, w')
    end.

(** ** Requests and responses *)

(** [json] is the outcome of [request.json()]: the parsed body, or [None]
    when the body is not valid JSON and the promise rejects. *)
Record Request := {
  method : jsstring;
  pathname : jsstring;
  json : option value
}.

Inductive Payload : Type :=
  | Text (s : jsstring)
  | StateJson (state : UserState) (stats : list Stat)
  | HabitJson (habit : Habit) (state : UserState) (stats : list Stat)
  | LogJson (log : HabitLog) (state : UserState) (stats : list Stat)
  | CoachJson (reply : jsstring) (stats : list Stat).

Record Response := {
  status : Z;
  payload : Payload
}.

(** [new Response(text, { status })] and [Response.json(data)] *)
Definition Response_text (text : string) (st : Z) : Response :=
  {| status := st; payload := Text (lit text) |}.

Definition Response_json (data : Payload) : Response :=
  {| status := 200; payload := data |}.

(** ** HabitStore *)

Definition loadState : Eff UserState :=
  stored <- storage_get ;;
  match stored with
  | Some s => ret s
  | None =>
      let fresh := defaultState in
      storage_put fresh ;;;
      ret fresh
  end.

Definition saveState (state : UserState) : Eff unit := storage_put state.

(** [body.k], and the test [!body.k] *)
Definition prop (body : value) (k : string) : Eff value := lift (Get body (lit k)).

Definition missing (body : value) (k : string) : Eff bool :=
  v <- prop body k ;; ret (negb (truthy v)).

(** [a || b] on tests, the right operand evaluated only when needed *)
Definition orElse (a b : Eff bool) : Eff bool :=
  x <- a ;; if x then ret true else b.

Definition find_habit (hid : value) (hs : list Habit) : option Habit :=
  find (fun h => strict_eq_str hid (id h)) hs.

(** The prompt of the coach operation. *)
Definition nl : jsstring := [10%N].
Definition dquote : jsstring := [34%N].
Definition en_dash : jsstring := [8211%N].

Definition stat_block (s : Stat) : option jsstring :=
  n <-? ToString (stat_name s) ;;
  c <-? ToString (VNum (Number_of_nat (completedLast7Days s))) ;;
  t <-? ToString (targetPerWeek s) ;;
  Some (lit "Habit: " ++ n ++ nl
        ++ lit "- Completed last 7 days: " ++ c ++ nl
        ++ lit "- Target per week: " ++ t ++ nl
        ++ lit "- Completion rate: "
        ++ toFixed0 (num_mul (completionRate s) (Number_of_Z 100)) ++ lit "%").

Definition statsSummary (stats : list Stat) : option jsstring :=
  blocks <-? map_throwing stat_block stats ;;
  Some (join (nl ++ nl) blocks).

Definition systemPrompt (habitsSummary userMessage : jsstring) : jsstring :=
  trim (nl
    ++ lit "You are an encouraging, practical AI habit coach. " ++ nl
    ++ lit "You see the user's habit definitions and their performance over the last 7 days." ++ nl
    ++ lit "Give clear, concise feedback and *one or two* actionable suggestions." ++ nl
    ++ nl
    ++ lit "Be:" ++ nl
    ++ lit "- Short (2" ++ en_dash ++ lit "4 paragraphs max)" ++ nl
    ++ lit "- Concrete (numbers, patterns, examples)" ++ nl
    ++ lit "- Supportive (no shaming)." ++ nl
    ++ nl
    ++ lit "User's habit data:" ++ nl
    ++ nl
    ++ (match habitsSummary with [] => lit "No data yet." | _ => habitsSummary end) ++ nl
    ++ nl
    ++ lit "User's question or message:" ++ nl
    ++ dquote ++ userMessage ++ dquote ++ nl).

Definition str_is (s : jsstring) (l : string) : bool := str_eqb s (lit l).

(** The four routes of [HabitStore.fetch], each the body of one [if] of
    its [try] block; [body] is the outcome of [request.json()]. *)

(** [GET /api/state] *)
Definition route_state (rt : Runtime) : Eff Response :=
  state <- loadState ;;
  stats <- lift (computeStats state (Date_now rt)) ;;
  ret (Response_json (StateJson state stats)).

(** [POST /api/habits] *)
Definition route_habits (rt : Runtime) (parsed : option value) : Eff Response :=
  body <- lift parsed ;;
  invalid <- orElse (missing body "name")
               (orElse (missing body "frequency")
                  (orElse (missing body "targetPerPeriod")
                     (missing body "period"))) ;;
  if invalid then ret (Response_text "Invalid habit payload" 400) else
  state <- loadState ;;
  body_name <- prop body "name" ;;
  body_frequency <- prop body "frequency" ;;
  body_targetPerPeriod <- prop body "targetPerPeriod" ;;
  body_period <- prop body "period" ;;
  let newHabit := {| id := randomUUID rt;
                     name := body_name;
                     frequency := body_frequency;
                     targetPerPeriod := body_targetPerPeriod;
                     period := body_period;
                     createdAt := Date_new rt |} in
  let state := {| habits := habits state ++ [newHabit];
                  logs := logs state |} in
  saveState state ;;;
  stats <- lift (computeStats state (Date_now rt)) ;;
  ret (Response_json (HabitJson newHabit state stats)).

(** [POST /api/log] *)
Definition route_log (rt : Runtime) (parsed : option value) : Eff Response :=
  body <- lift parsed ;;
  no_id <- missing body "habitId" ;;
  if no_id then ret (Response_text "Missing habitId" 400) else
  state <- loadState ;;
  body_habitId <- prop body "habitId" ;;
  match find_habit body_habitId (habits state) with
  | None => ret (Response_text "Habit not found" 404)
  | Some _ =>
      let log := {| log_id := randomUUID rt;
                    habitId := body_habitId;
                    timestamp := Date_new rt |} in
      let state := {| habits := habits state;
                      logs := logs state ++ [log] |} in
      saveState state ;;;
      stats <- lift (computeStats state (Date_now rt)) ;;
      ret (Response_json (LogJson log state stats))
  end.

(** [POST /api/coach] *)
Definition route_coach (rt : Runtime) (parsed : option value) : Eff Response :=
  body <- lift parsed ;;
  body_message <- prop body "message" ;;
  message <- (if truthy body_message
              then match body_message with
                   | VStr s => ret s
                   | _ => throw      (* [.trim] is not a function *)
                   end
              else ret []) ;;
  let userMessage := trim message in
  match userMessage with
  | [] => ret (Response_text "Missing message" 400)
  | _ =>
      state <- loadState ;;
      stats <- lift (computeStats state (Date_now rt)) ;;
      summary <- lift (statsSummary stats) ;;
      let habitsSummary :=
        match habits state with
        | [] => lit "The user has not created any habits yet."
        | _ => summary
        end in
      aiResponse <- AI_run rt AI_model (systemPrompt habitsSummary userMessage) ;;
      ret (Response_json (CoachJson aiResponse stats))
  end.

(** The [try] block of [HabitStore.fetch]. *)
Definition handle (rt : Runtime) (request : Request) : Eff Response :=
  if str_is (method request) "GET" && str_is (pathname request) "/api/state" then
    route_state rt
  else if str_is (method request) "POST" && str_is (pathname request) "/api/habits" then
    route_habits rt (json request)
  else if str_is (method request) "POST" && str_is (pathname request) "/api/log" then
    route_log rt (json request)
  else if str_is (method request) "POST" && str_is (pathname request) "/api/coach" then
    route_coach rt (json request)
  else
    ret (Response_text "Not found" 404).

(** The [catch] clause of [HabitStore.fetch]: every exception becomes the
    500 response; what the handler did to the world before it threw stays. *)
Definition catching (c : Eff Response) (w : World) : Response * World :=
  match c w with
  | (Normal response, w') => (response, w')
  | (Throw, w') => (Response_text "Internal error" 500, w')
  end.

(** [HabitStore.fetch] *)
Definition fetch (rt : Runtime) (request : Request) : World -> Response * World :=
  catching (handle rt request).

(** ** The Worker: routing a request to the user's HabitStore *)

(** [s.startsWith(prefix)] *)
Fixpoint startsWith (s prefix : jsstring) : bool :=
  match prefix, s with
  | [], _ => true
  | p :: prefix', c :: s' => N.eqb c p && startsWith s' prefix'
  | _ :: _, [] => false
  end.

(** The namespace [env.HABIT_STORE]: one HabitStore instance per name
    ([idFromName] then [get]), each with a world of its own, whose
    [AI_calls] are the calls that instance made. *)
Definition Namespace : Type := jsstring -> World.

Definition instance_set (ns : Namespace) (name : jsstring) (w : World) : Namespace :=
  fun n => if str_eqb n name then w else ns n.

(** [url.searchParams.get("userId") || "anonymous"]: the parameter is
    [None] when the query string has none. *)
Definition userId_of (param : option jsstring) : jsstring :=
  match param with
  | Some (c :: s) => c :: s
  | Some [] | None => lit "anonymous"
  end.

(** The default export's [fetch]: [param] is the [userId] parameter of the
    request's URL. *)
Definition worker_fetch (rt : Runtime) (param : option jsstring)
    (request : Request) (ns : Namespace) : Response * Namespace :=
  if negb (startsWith (pathname request) (lit "/api/")) then
    (Response_text "Not found" 404, ns)
  else
    let userId := userId_of param in
    let result := fetch rt request (ns userId) in
    (fst result, instance_set ns userId (snd result)).

(** ** Vocabulary of the properties *)

Definition GET (path : string) : Request :=
  {| method := lit "GET"; pathname := lit path; json := None |}.

Definition POST (path : string) (parsed : option value) : Request :=
  {| method := lit "POST"; pathname := lit path; json := parsed |}.

(** An object literal. *)
Definition obj (props : list (string * value)) : value :=
  VObj (map (fun kv => (lit (fst kv), snd kv)) props).

(** The user's state as the actor sees it: the stored blob, or the empty
    state when nothing is stored yet. *)
Definition stored_state (w : World) : UserState :=
  match storage w with
  | Some s => s
  | None => defaultState
  end.

(** The world once [loadState] has run: an unset key now holds the empty
    state. *)
Definition loaded (w : World) : World :=
  match storage w with
  | Some _ => w
  | None => {| storage := Some defaultState; AI_calls := AI_calls w |}
  end.

(** The state a response carries, if any. *)
Definition response_state (r : Response) : option UserState :=
  match payload r with
  | StateJson s _ | HabitJson _ s _ | LogJson _ s _ => Some s
  | _ => None
  end.

(** The stats a response carries, if any. *)
Definition response_stats (r : Response) : option (list Stat) :=
  match payload r with
  | StateJson _ stats | HabitJson _ _ stats | LogJson _ _ stats
  | CoachJson _ stats => Some stats
  | Text _ => None
  end.

(** An operation that takes [w] to [w'] has not changed the user's state:
    the habit and log sequences are the same, and the stored blob is the
    same but for an unset key now holding the empty state. *)
Definition state_kept (w w' : World) : Prop :=
  habits (stored_state w') = habits (stored_state w) /\
  logs (stored_state w') = logs (stored_state w) /\
  (storage w' = storage w \/ storage w = None /\ storage w' = Some defaultState).

(** The validation the specification describes for creating a habit:
    [name] a non-empty string, [targetPerPeriod] a positive number,
    [frequency] one of daily and weekly, [period] one of day and week. *)
Definition spec_valid_habit_payload (body : value) : bool :=
  match Get body (lit "name"), Get body (lit "frequency"),
        Get body (lit "targetPerPeriod"), Get body (lit "period") with
  | Some n, Some f, Some t, Some p =>
      match n with VStr (_ :: _) => true | _ => false end
      && match t with VNum x => num_ltb (S754_zero false) x | _ => false end
      && (strict_eq_str f (lit "daily") || strict_eq_str f (lit "weekly"))
      && (strict_eq_str p (lit "day") || strict_eq_str p (lit "week"))
  | _, _, _, _ => false
  end.

(** The count the specification describes: the logs of the habit whose
    timestamp lies in the closed window from [now - 7*24h] to [now]. *)
Definition spec_in_window (now : Z) (habit : Habit) (log : HabitLog) : bool :=
  strict_eq_str (habitId log) (id habit)
  && (now - week_ms <=? timestamp log) && (timestamp log <=? now).

Definition spec_completedLast7Days (state : UserState) (now : Z) (habit : Habit) : nat :=
  List.length (filter (spec_in_window now habit) (logs state)).

(** [x] is a zero, or a finite number or an infinity of sign [s]. *)
Definition has_sign (s : bool) (x : number) : Prop :=
  match x with
  | S754_zero _ => True
  | S754_finite s' _ _ | S754_infinity s' => s' = s
  | S754_nan => False
  end.

(** [x] is +0 or a positive finite number. *)
Definition finite_nonneg (x : number) : Prop :=
  match x with
  | S754_zero false | S754_finite false _ _ => True
  | _ => False
  end.

(** The count [computeStats] takes: the logs of the habit stamped at or
    after [now - 604800000] ms, with no bound from above. *)
Definition counted_since (now : Z) (habit : Habit) (log : HabitLog) : bool :=
  strict_eq_str (habitId log) (id habit) && (now - 604800000 <=? timestamp log).

Definition counts_since (state : UserState) (now : Z) (habit : Habit) (s : Stat) : Prop :=
  completedLast7Days s = List.length (filter (counted_since now habit) (logs state)) /\
  ((forall log, In log (logs state) -> timestamp log <= now) ->
   completedLast7Days s = spec_completedLast7Days state now habit).

(** The weekly target and the completion rate of the stat [s] of [habit]:
    the target is [targetPerPeriod] for a weekly period and
    [targetPerPeriod * 7] for a daily one, the rate is
    [min(1, completedLast7Days / targetPerWeek)] for a positive target and
    0 for a target that is zero or negative, and it lies between 0 and 1. *)
Definition weekly_target_and_rate (habit : Habit) (s : Stat) : Prop :=
  (period habit = VStr (lit "week") -> targetPerWeek s = targetPerPeriod habit) /\
  (period habit = VStr (lit "day") ->
   exists t, ToNumber (targetPerPeriod habit) = Some t /\
             targetPerWeek s = VNum (num_mul t (Number_of_Z 7))) /\
  (exists tw, ToNumber (targetPerWeek s) = Some tw /\
     (num_ltb (S754_zero false) tw = true ->
      completionRate s =
        Math_min (Number_of_Z 1)
          (num_div (Number_of_nat (completedLast7Days s)) tw)) /\
     (num_leb tw (S754_zero false) = true ->
      completionRate s = S754_zero false)) /\
  num_leb (S754_zero false) (completionRate s) = true /\
  num_leb (completionRate s) (Number_of_Z 1) = true.

(** ** Sample data for the concrete runs *)

Definition read_habit : Habit :=
  {| id := lit "h1";
     name := VStr (lit "Read");
     frequency := VStr (lit "daily");
     targetPerPeriod := VNum (Number_of_Z 1);
     period := VStr (lit "day");
     createdAt := 0 |}.

Definition read_log (t : Z) : HabitLog :=
  {| log_id := lit "l1"; habitId := VStr (lit "h1"); timestamp := t |}.

Definition world_of (state : UserState) : World :=
  {| storage := Some state; AI_calls := [] |}.

Definition fresh_world : World := {| storage := None; AI_calls := [] |}.

Definition runtime_at (t : Z) : Runtime :=
  {| randomUUID := lit "u1";
     Date_new := t;
     Date_now := t;
     AI_reply := fun _ => Some (lit "Keep going.") |}.

(** Stand-ins for the conversions of the language, for the concrete runs;
    the runs handle numbers and strings only and reach no conversion of a
    string, array or object to a number. *)
Definition any_StringToNumber : jsstring -> number := fun _ => NaN.
Definition any_ObjectToString : value -> option jsstring :=
  fun _ => Some (lit "[object Object]").
Definition any_NumberToString : number -> jsstring := fun _ => lit "0".
Definition any_toFixed0 : number -> jsstring := fun _ => lit "0".

(** ** Vocabulary of the further properties *)

(** The habit and the log that the create and log operations build. *)
Definition new_habit (rt : Runtime) (n f t p : value) : Habit :=
  {| id := randomUUID rt; name := n; frequency := f; targetPerPeriod := t;
     period := p; createdAt := Date_new rt |}.

Definition new_log (rt : Runtime) (hid : value) : HabitLog :=
  {| log_id := randomUUID rt; habitId := hid; timestamp := Date_new rt |}.

Definition with_habit (w : World) (h : Habit) : World :=
  {| storage := Some {| habits := habits (stored_state w) ++ [h];
                        logs := logs (stored_state w) |};
     AI_calls := AI_calls w |}.

Definition with_log (w : World) (l : HabitLog) : World :=
  {| storage := Some {| habits := habits (stored_state w);
                        logs := logs (stored_state w) ++ [l] |};
     AI_calls := AI_calls w |}.

Definition with_AI_call (w : World) (prompt : jsstring) : World :=
  {| storage := storage (loaded w);
     AI_calls := AI_calls w ++ [(AI_model, prompt)] |}.

Definition internal_error : Response := Response_text "Internal error" 500.

(** The shapes a request's outcome can take: the response and the world
    left behind, from the world [w] it started in. *)
Inductive outcome (request : Request) (w : World) : Response -> World -> Prop :=
  | refused text st w' :
      st = 400 \/ st = 404 \/ st = 500 ->
      w' = w \/ w' = loaded w ->
      outcome request w (Response_text text st) w'
  | state_read stats :
      outcome request w
        (Response_json (StateJson (stored_state w) stats)) (loaded w)
  | habit_created h r :
      r = internal_error \/
      (exists stats,
         r = Response_json
               (HabitJson h {| habits := habits (stored_state w) ++ [h];
                               logs := logs (stored_state w) |} stats)) ->
      outcome request w r (with_habit w h)
  | log_created l h r :
      In h (habits (stored_state w)) ->
      habitId l = VStr (id h) ->
      r = internal_error \/
      (exists stats,
         r = Response_json
               (LogJson l {| habits := habits (stored_state w);
                             logs := logs (stored_state w) ++ [l] |} stats)) ->
      outcome request w r (with_log w l)
  | coach_asked prompt r :
      method request = lit "POST" ->
      pathname request = lit "/api/coach" ->
      r = internal_error \/
      (exists reply stats, r = Response_json (CoachJson reply stats)) ->
      outcome request w r (with_AI_call w prompt).

(** Every stored log carries the id of a stored habit. *)
Definition logs_refer_to_habits (state : UserState) : Prop :=
  forall l, In l (logs state) ->
  exists h, In h (habits state) /\ habitId l = VStr (id h).

(** One request after another on the same actor, each with its own
    readings of the environment. *)
Fixpoint fetch_all (steps : list (Runtime * Request)) (w : World) : World :=
  match steps with
  | [] => w
  | (rt, request) :: rest => fetch_all rest (snd (fetch rt request w))
  end.

(** A stand-in for the conversion of objects in which an object with an
    own [toString] property, which in a parsed body is never callable,
    cannot be converted. *)
Definition plain_ObjectToString (v : value) : option jsstring :=
  match v with
  | VObj props =>
      if existsb (fun kv => str_eqb (fst kv) (lit "toString")) props
      then None
      else Some (lit "[object Object]")
  | _ => Some []
  end.

(** One request after another through the Worker, each with the [userId]
    parameter of its URL. *)
Fixpoint worker_fetch_all (steps : list (Runtime * option jsstring * Request))
    (ns : Namespace) : Namespace :=
  match steps with
  | [] => ns
  | (rt, param, request) :: rest =>
      worker_fetch_all rest (snd (worker_fetch rt param request ns))
  end.

(** The log [l] passes the test [timestamp >= now - 7*24h] of
    [computeStats] at both clock readings, or at neither. *)
Definition same_side (now1 now2 : Z) (l : HabitLog) : Prop :=
  now1 - week_ms <= timestamp l <-> now2 - week_ms <= timestamp l.

(** No log of a stored habit crosses the lower bound of the window between
    the two clock readings. *)
Definition no_log_crosses (state : UserState) (now1 now2 : Z) : Prop :=
  forall l h, In l (logs state) -> In h (habits state) ->
  habitId l = VStr (id h) -> same_side now1 now2 l.

(** Position by position, [after] reports for every habit that has the id
    of [habit] a count one greater than [before] does. *)
Definition counts_one_more (habit : Habit) (hs : list Habit)
    (before after : list Stat) : Prop :=
  forall i h, nth_error hs i = Some h -> id h = id habit ->
  exists s s', nth_error before i = Some s /\ nth_error after i = Some s' /\
               completedLast7Days s' = S (completedLast7Days s).

(** ** Facts about binary64 arithmetic *)

Lemma iter_pos_invariant {A} (P : A -> Prop) (f : A -> A) :
  (forall x, P x -> P (f x)) ->
  forall p x, P x -> P (iter_pos f p x).
Proof.
  intros Hf. induction p as [p IH | p IH | ]; intros x Hx; simpl.
  - apply IH, IH, Hf, Hx.
  - apply IH, IH, Hx.
  - apply Hf, Hx.
Qed.

Lemma shr_1_nonneg mrs : 0 <= shr_m mrs -> 0 <= shr_m (shr_1 mrs).
Proof.
  destruct mrs as [m r s]. destruct m as [ | [p | p | ] | [p | p | ] ]; simpl; lia.
Qed.

Lemma shr_fexp_nonneg m e l :
  0 <= m -> 0 <= shr_m (fst (shr_fexp prec emax m e l)).
Proof.
  intros Hm. unfold shr_fexp, shr.
  assert (H0 : 0 <= shr_m (shr_record_of_loc m l))
    by (destruct l as [ | [ | | ] ]; exact Hm).
  destruct (fexp prec emax (Zdigits2 m + e) - e) as [ | p | p ]; simpl; trivial.
  now apply iter_pos_invariant with (P := fun r => 0 <= shr_m r);
    [ exact shr_1_nonneg | ].
Qed.

Lemma round_nearest_even_nonneg m l : 0 <= m -> 0 <= round_nearest_even m l.
Proof.
  intros Hm. destruct l as [ | [ | | ] ]; simpl; try lia.
  destruct (Z.even m); lia.
Qed.

Lemma binary_round_aux_sign s m e l :
  0 <= m -> has_sign s (binary_round_aux prec emax s m e l).
Proof.
  intros Hm. unfold binary_round_aux.
  pose proof (shr_fexp_nonneg m e l Hm) as H1.
  destruct (shr_fexp prec emax m e l) as [mrs' e']. simpl in H1.
  pose proof (shr_fexp_nonneg _ e' loc_Exact
                (round_nearest_even_nonneg _ (loc_of_shr_record mrs') H1)) as H2.
  destruct (shr_fexp prec emax _ e' loc_Exact) as [mrs'' e'']. simpl in H2.
  destruct (shr_m mrs'') as [ | q | q ].
  - exact I.
  - destruct (e'' <=? emax - prec); reflexivity.
  - lia.
Qed.

Lemma div_core_nonneg mx ex my ey q e l :
  SFdiv_core_binary prec emax (Zpos mx) ex (Zpos my) ey = (q, e, l) -> 0 <= q.
Proof.
  unfold SFdiv_core_binary.
  set (s := ex - ey - _).
  set (m' := match s with Z0 => Zpos mx | Zpos _ => Z.shiftl (Zpos mx) s | Zneg _ => 0 end).
  assert (Hm' : 0 <= m').
  { subst m'. destruct s; try lia. apply Z.shiftl_nonneg. lia. }
  pose proof (Z_div_mod m' (Zpos my) eq_refl) as Hdiv.
  destruct (Z.div_eucl m' (Zpos my)) as [q' r']. intros [= <- _ _]. nia.
Qed.

Lemma num_div_sign c t :
  finite_nonneg c -> num_ltb (S754_zero false) t = true ->
  has_sign false (num_div c t).
Proof.
  intros Hc Ht.
  destruct t as [st | [ | ] | | [ | ] mt et]; try discriminate Ht;
    destruct c as [ [ | ] | sc | | [ | ] mc ec]; try contradiction Hc;
    simpl; trivial.
  unfold num_div, SFdiv.
  destruct (SFdiv_core_binary prec emax (Zpos mc) ec (Zpos mt) et) as [[q e] l] eqn:E.
  apply binary_round_aux_sign. eapply div_core_nonneg, E.
Qed.

Lemma SFcompare_antisym x y :
  SFcompare y x = option_map CompOpp (SFcompare x y).
Proof.
  destruct x as [sx | sx | | sx mx ex], y as [sy | sy | | sy my ey];
    try reflexivity; try (destruct sx; reflexivity);
    try (destruct sy; reflexivity); try (destruct sx, sy; reflexivity).
  unfold SFcompare, option_map. f_equal.
  rewrite (Z.compare_antisym ex ey).
  destruct sx, sy; try reflexivity; destruct (ex ?= ey); try reflexivity; simpl.
  - now rewrite (Pos.compare_cont_antisym mx my Eq).
  - now rewrite (Pos.compare_cont_antisym mx my Eq).
Qed.

Lemma SFcompare_defined x y :
  SFcompare x y = None -> x = S754_nan \/ y = S754_nan.
Proof.
  destruct x, y; simpl; intros H; try discriminate H; auto.
Qed.

Lemma num_leb_zero x : has_sign false x -> num_leb (S754_zero false) x = true.
Proof.
  destruct x as [s | s | | s m e]; simpl; intros H; try contradiction; subst;
    reflexivity.
Qed.

Lemma Math_min_one_bounds x :
  has_sign false x ->
  num_leb (S754_zero false) (Math_min (Number_of_Z 1) x) = true /\
  num_leb (Math_min (Number_of_Z 1) x) (Number_of_Z 1) = true.
Proof.
  intros Hx.
  change (Number_of_Z 1) with (S754_finite false 4503599627370496 (-52)).
  set (one := S754_finite false 4503599627370496 (-52)).
  pose proof (SFcompare_antisym one x) as Hanti.
  unfold Math_min, num_leb, SFleb.
  destruct (SFcompare one x) as [[ | | ] | ] eqn:E; simpl in Hanti;
    subst one; cbv beta iota.
  - split; [ apply (num_leb_zero x Hx) | now rewrite Hanti ].
  - split; reflexivity.
  - split; [ apply (num_leb_zero x Hx) | now rewrite Hanti ].
  - destruct (SFcompare_defined _ _ E) as [H | H]; [ discriminate H | ].
    subst x. contradiction Hx.
Qed.

Lemma num_leb_zero_not_ltb t :
  num_leb t (S754_zero false) = true -> num_ltb (S754_zero false) t = false.
Proof.
  destruct t as [s | [ | ] | | [ | ] m e]; unfold num_leb, num_ltb, SFleb, SFltb;
    simpl; intros H; (discriminate H || reflexivity).
Qed.

Lemma digits2_pos_bound p k :
  0 <= k -> Zpos p < 2 ^ k -> Zpos (digits2_pos p) <= k.
Proof.
  revert k. induction p as [p IH | p IH | ]; intros k Hk Hp; simpl.
  - assert (0 < k) by (destruct (Z.eq_dec k 0); [ subst; simpl in Hp; lia | lia ]).
    replace k with (Z.succ (k - 1)) in Hp by lia.
    rewrite Z.pow_succ_r in Hp by lia.
    specialize (IH (k - 1) ltac:(lia) ltac:(lia)). lia.
  - assert (0 < k) by (destruct (Z.eq_dec k 0); [ subst; simpl in Hp; lia | lia ]).
    replace k with (Z.succ (k - 1)) in Hp by lia.
    rewrite Z.pow_succ_r in Hp by lia.
    specialize (IH (k - 1) ltac:(lia) ltac:(lia)). lia.
  - assert (0 < k) by (destruct (Z.eq_dec k 0); [ subst; simpl in Hp; lia | lia ]).
    lia.
Qed.

Lemma digits2_pos_iter_xO p n :
  Zpos (digits2_pos (Pos.iter xO p n)) = Zpos (digits2_pos p) + Zpos n.
Proof.
  induction n as [ | n IH] using Pos.peano_ind.
  - simpl. lia.
  - rewrite Pos.iter_succ. simpl. lia.
Qed.

Lemma shl_align_digits p e e' :
  e' <= e ->
  snd (shl_align p e e') = e' /\
  Zpos (digits2_pos (fst (shl_align p e e'))) = Zpos (digits2_pos p) + (e - e').
Proof.
  intros Hle. unfold shl_align.
  destruct (e' - e) as [ | d | d] eqn:Ed; cbn [fst snd].
  - lia.
  - lia.
  - rewrite digits2_pos_iter_xO. lia.
Qed.

(** A positive integer below 2^53 is a finite binary64 number. *)
Lemma binary_round_small p :
  Zpos p < 2 ^ 53 -> finite_nonneg (binary_round prec emax false p 0).
Proof.
  intros Hp. pose proof (digits2_pos_bound p 53 ltac:(lia) Hp) as Hd.
  assert (Hd1 : 1 <= Zpos (digits2_pos p)) by lia.
  unfold binary_round.
  assert (Hf : fexp prec emax (Zpos (digits2_pos p) + 0) = Zpos (digits2_pos p) - 53)
    by (unfold fexp, SpecFloat.emin, prec, emax; lia).
  rewrite Hf.
  destruct (shl_align_digits p 0 (Zpos (digits2_pos p) - 53) ltac:(lia))
    as [Hez Hmz].
  destruct (shl_align p 0 (Zpos (digits2_pos p) - 53)) as [mz ez].
  cbn [fst snd] in Hez, Hmz.
  assert (Hshr : forall l, shr_fexp prec emax (Zpos mz) ez l =
                           (shr_record_of_loc (Zpos mz) l, ez)).
  { intros l. unfold shr_fexp. cbn [Zdigits2].
    replace (fexp prec emax (Zpos (digits2_pos mz) + ez) - ez) with 0
      by (unfold fexp, SpecFloat.emin, prec, emax; lia).
    reflexivity. }
  unfold binary_round_aux. rewrite Hshr.
  cbn [shr_record_of_loc shr_m loc_of_shr_record round_nearest_even].
  rewrite Hshr. cbn [shr_record_of_loc shr_m].
  replace (ez <=? emax - prec) with true
    by (symmetry; apply Z.leb_le; unfold emax, prec; lia).
  exact I.
Qed.

Lemma Number_of_nat_finite n :
  Z.of_nat n < 2 ^ 53 -> finite_nonneg (Number_of_nat n).
Proof.
  unfold Number_of_nat, Number_of_Z, binary_normalize.
  destruct (Z.of_nat n) as [ | p | p] eqn:E; intros H.
  - exact I.
  - now apply binary_round_small.
  - lia.
Qed.


(** ** Facts about strings and lists *)

Lemma str_eqb_eq a b : str_eqb a b = true <-> a = b.
Proof.
  revert b. induction a as [ | x a IH]; intros [ | y b]; simpl;
    try (split; intros H; (reflexivity || discriminate H)).
  rewrite andb_true_iff, N.eqb_eq, IH. split.
  - intros [-> ->]. reflexivity.
  - intros [= -> ->]. auto.
Qed.

Lemma str_eqb_refl a : str_eqb a a = true.
Proof. now apply str_eqb_eq. Qed.

Lemma strict_eq_str_spec v s : strict_eq_str v s = true <-> v = VStr s.
Proof.
  destruct v; simpl; try (split; intros H; discriminate H).
  rewrite str_eqb_eq. split; [ intros -> | intros [= ->] ]; reflexivity.
Qed.

Lemma trimStart_blank m : forallb isWhiteSpace m = true -> trimStart m = [].
Proof.
  induction m as [ | c m IH]; simpl; [ reflexivity | ].
  intros H. apply andb_true_iff in H as [Hc Hm]. rewrite Hc. auto.
Qed.

Lemma trim_blank m : forallb isWhiteSpace m = true -> trim m = [].
Proof. intros H. unfold trim. rewrite (trimStart_blank m H). reflexivity. Qed.

Lemma map_throwing_Forall2 {A B} (f : A -> option B) xs ys :
  map_throwing f xs = Some ys -> Forall2 (fun x y => f x = Some y) xs ys.
Proof.
  revert ys. induction xs as [ | x xs IH]; simpl; intros ys H.
  - injection H as <-. constructor.
  - destruct (f x) as [y | ] eqn:Ex; [ | discriminate H ]. simpl in H.
    destruct (map_throwing f xs) as [ys' | ]; [ | discriminate H ].
    injection H as <-. constructor; auto.
Qed.

(** ** The Stats Engine: one habit *)

(** What [habit_stat] computes when it does not throw. *)
Lemma habit_stat_inv state weekAgo habit s :
  habit_stat state weekAgo habit = Some s ->
  exists tpw t,
    (if strict_eq_str (period habit) (lit "week")
     then tpw = targetPerPeriod habit
     else exists t0, ToNumber (targetPerPeriod habit) = Some t0 /\
                     tpw = VNum (num_mul t0 (Number_of_Z 7))) /\
    ToNumber tpw = Some t /\
    s = {| stat_habitId := id habit;
           stat_name := name habit;
           completedLast7Days :=
             List.length (filter (in_last7 weekAgo habit) (logs state));
           targetPerWeek := tpw;
           completionRate :=
             if num_ltb (S754_zero false) t
             then Math_min (Number_of_Z 1)
                    (num_div (Number_of_nat
                       (List.length (filter (in_last7 weekAgo habit) (logs state)))) t)
             else S754_zero false |}.
Proof.
  unfold habit_stat. intros H.
  destruct (strict_eq_str (period habit) (lit "week")).
  - cbn [obind] in H.
    destruct (ToNumber (targetPerPeriod habit)) as [t | ] eqn:Et;
      [ | discriminate H ].
    cbn [obind] in H. injection H as <-. eauto.
  - destruct (ToNumber (targetPerPeriod habit)) as [t0 | ] eqn:Et0;
      [ | discriminate H ].
    cbn [obind ToNumber] in H. injection H as <-.
    exists (VNum (num_mul t0 (Number_of_Z 7))), (num_mul t0 (Number_of_Z 7)).
    eauto.
Qed.

(** Whether [habit_stat] throws depends on the habit alone. *)
Lemma habit_stat_defined state weekAgo state' weekAgo' habit s :
  habit_stat state weekAgo habit = Some s ->
  exists s', habit_stat state' weekAgo' habit = Some s'.
Proof.
  unfold habit_stat.
  destruct (if strict_eq_str (period habit) (lit "week") then _ else _)
    as [tpw | ]; [ | discriminate ].
  cbn [obind]. destruct (ToNumber tpw); [ | discriminate ].
  cbn [obind]. eauto.
Qed.

Lemma rate_in_unit_interval (n : nat) (t : number) :
  Z.of_nat n < 2 ^ 53 ->
  let rate := if num_ltb (S754_zero false) t
              then Math_min (Number_of_Z 1) (num_div (Number_of_nat n) t)
              else S754_zero false in
  num_leb (S754_zero false) rate = true /\ num_leb rate (Number_of_Z 1) = true.
Proof.
  intros Hn. cbv zeta. destruct (num_ltb (S754_zero false) t) eqn:Et.
  - apply Math_min_one_bounds, num_div_sign; [ | exact Et ].
    now apply Number_of_nat_finite.
  - split; reflexivity.
Qed.

(** ** The Stats Engine: claims C2 and C4 *)

(** Claim C2, as amended.  For every state, every instant [now] and every
    habit, [completedLast7Days] is the number of logs that carry the
    habit's id and are stamped at or after [now - 7*24h]; older logs are
    not counted, and the timestamp is not bounded from above.  The count
    is the one over the closed window from [now - 7*24h] to [now] whenever
    no log is stamped later than [now]. *)
Theorem completedLast7Days_counts_since state now stats :
  computeStats state now = Some stats ->
  Forall2 (counts_since state now) (habits state) stats.
Proof.
  intros H. apply map_throwing_Forall2 in H.
  eapply Forall2_impl; [ | exact H ].
  intros habit s Hs. apply habit_stat_inv in Hs as (tpw & t & _ & _ & ->).
  split; cbn [completedLast7Days].
  - reflexivity.
  - intros Hnow. unfold spec_completedLast7Days. f_equal.
    apply filter_ext_in. intros log Hin.
    unfold in_last7, spec_in_window.
    replace (timestamp log <=? now) with true
      by (symmetry; apply Z.leb_le; auto).
    now rewrite andb_true_r.
Qed.

(** Claim C4.  For every habit of a state with fewer than 2^53 logs, the
    derived stat has [targetPerWeek = targetPerPeriod] when the period is
    week and [targetPerPeriod * 7] when it is day;
    [completionRate = min(1, completedLast7Days / targetPerWeek)] when
    [targetPerWeek > 0] and 0 when [targetPerWeek <= 0]; and
    [0 <= completionRate <= 1]. *)
Theorem stat_weekly_target_and_rate state now stats :
  Z.of_nat (List.length (logs state)) < 2 ^ 53 ->
  computeStats state now = Some stats ->
  Forall2 weekly_target_and_rate (habits state) stats.
Proof.
  intros Hlen H. apply map_throwing_Forall2 in H.
  eapply Forall2_impl; [ | exact H ].
  intros habit s Hs.
  apply habit_stat_inv in Hs as (tpw & t & Htpw & Ht & ->).
  unfold weekly_target_and_rate.
  cbn [targetPerWeek completionRate completedLast7Days].
  set (n := List.length (filter (in_last7 (now - week_ms) habit) (logs state))).
  assert (Hn : Z.of_nat n < 2 ^ 53).
  { pose proof (filter_length_le (in_last7 (now - week_ms) habit) (logs state)).
    fold n in H0. lia. }
  repeat split.
  - intros Hweek.
    assert (E : strict_eq_str (period habit) (lit "week") = true)
      by (rewrite Hweek; reflexivity).
    rewrite E in Htpw. exact Htpw.
  - intros Hday.
    assert (E : strict_eq_str (period habit) (lit "week") = false)
      by (rewrite Hday; reflexivity).
    rewrite E in Htpw. exact Htpw.
  - exists t. split; [ exact Ht | split ].
    + intros Hpos. now rewrite Hpos.
    + intros Hneg. now rewrite (num_leb_zero_not_ltb t Hneg).
  - apply (rate_in_unit_interval n t Hn).
  - apply (rate_in_unit_interval n t Hn).
Qed.

(** ** The actor: dispatch and elementary steps *)

Lemma handle_GET_state rt : handle rt (GET "/api/state") = route_state rt.
Proof. reflexivity. Qed.

Lemma handle_POST_habits rt parsed :
  handle rt (POST "/api/habits" parsed) = route_habits rt parsed.
Proof. reflexivity. Qed.

Lemma handle_POST_log rt parsed :
  handle rt (POST "/api/log" parsed) = route_log rt parsed.
Proof. reflexivity. Qed.

Lemma handle_POST_coach rt parsed :
  handle rt (POST "/api/coach" parsed) = route_coach rt parsed.
Proof. reflexivity. Qed.

Ltac run :=
  cbv beta iota zeta delta
    [catching route_state route_habits route_log route_coach bind lift
     missing prop orElse ret throw saveState storage_put].

Lemma loadState_spec w : loadState w = (Normal (stored_state w), loaded w).
Proof.
  destruct w as [[s | ] calls]; reflexivity.
Qed.

Lemma stored_state_loaded w : stored_state (loaded w) = stored_state w.
Proof. destruct w as [[s | ] calls]; reflexivity. Qed.

Lemma storage_loaded w : storage (loaded w) = Some (stored_state w).
Proof. destruct w as [[s | ] calls]; reflexivity. Qed.

Lemma AI_calls_loaded w : AI_calls (loaded w) = AI_calls w.
Proof. destruct w as [[s | ] calls]; reflexivity. Qed.

(** A property read that succeeds on a body succeeds for every key. *)
Lemma Get_defined body k v k' :
  Get body k = Some v -> exists v', Get body k' = Some v'.
Proof. destruct body; simpl; intros H; try discriminate H; eauto. Qed.

(** ** Rejections: claims C10, C1, C3 and C6 *)

(** A body that is the JSON value null is valid JSON, but reading a
    property of it throws: the three operations answer the internal
    failure and leave the world as it was. *)
Lemma null_body_is_internal_error rt w :
  fetch rt (POST "/api/habits" (Some VNull)) w = (Response_text "Internal error" 500, w) /\
  fetch rt (POST "/api/log" (Some VNull)) w = (Response_text "Internal error" 500, w) /\
  fetch rt (POST "/api/coach" (Some VNull)) w = (Response_text "Internal error" 500, w).
Proof. repeat split. Qed.

(** A request for anything but the four routes is not found, and its body
    is not read. *)
Lemma unknown_route_is_not_found rt parsed w :
  fetch rt (POST "/api/state" parsed) w = (Response_text "Not found" 404, w) /\
  fetch rt (GET "/api/habits") w = (Response_text "Not found" 404, w).
Proof. split; reflexivity. Qed.

(** Claim C10.  A POST to one of the three operations whose body is not
    valid JSON ends in the generic internal failure, status 500, and
    leaves the world, hence the stored state, as it was: the body is
    parsed before any load or save. *)
Theorem invalid_json_is_internal_error rt w :
  fetch rt (POST "/api/habits" None) w = (Response_text "Internal error" 500, w) /\
  fetch rt (POST "/api/log" None) w = (Response_text "Internal error" 500, w) /\
  fetch rt (POST "/api/coach" None) w = (Response_text "Internal error" 500, w).
Proof. repeat split. Qed.

(** Claim C1, as amended.  Creating a habit checks that each of [name],
    [frequency], [targetPerPeriod] and [period] is present and truthy (not
    undefined, null, false, 0, NaN or the empty string): for every parsed
    body other than null in which one of the four reads as a falsy value,
    the operation answers the validation error, status 400, and the world,
    hence the stored habit sequence, is unchanged. *)
Theorem create_habit_rejects_falsy_field rt w body k v :
  In k ["name"; "frequency"; "targetPerPeriod"; "period"]%string ->
  Get body (lit k) = Some v ->
  truthy v = false ->
  fetch rt (POST "/api/habits" (Some body)) w
  = (Response_text "Invalid habit payload" 400, w).
Proof.
  intros Hk Hget Hv. unfold fetch. rewrite handle_POST_habits.
  destruct (Get_defined _ _ _ (lit "name") Hget) as [n Hn].
  destruct (Get_defined _ _ _ (lit "frequency") Hget) as [f Hf].
  destruct (Get_defined _ _ _ (lit "targetPerPeriod") Hget) as [t Ht].
  destruct (Get_defined _ _ _ (lit "period") Hget) as [p Hp].
  assert (Hfalsy : truthy n && truthy f && truthy t && truthy p = false).
  { simpl in Hk.
    destruct Hk as [<- | [<- | [<- | [<- | []]]]];
      [ replace n with v by congruence | replace f with v by congruence
      | replace t with v by congruence | replace p with v by congruence ];
      rewrite Hv; now rewrite ?andb_false_r. }
  run. rewrite Hn, Hf, Ht, Hp. run.
  destruct (truthy n), (truthy f), (truthy t), (truthy p);
    try discriminate Hfalsy; reflexivity.
Qed.

Lemma find_habit_none v hs :
  (forall h, In h hs -> v <> VStr (id h)) -> find_habit v hs = None.
Proof.
  intros H. unfold find_habit.
  destruct (find _ hs) as [h | ] eqn:E; [ | reflexivity ].
  apply find_some in E as [Hin Heq]. apply strict_eq_str_spec in Heq.
  now apply H in Hin.
Qed.

Lemma find_habit_some habit hs :
  In habit hs -> exists h, find_habit (VStr (id habit)) hs = Some h.
Proof.
  intros Hin. unfold find_habit.
  destruct (find _ hs) as [h | ] eqn:E; [ eauto | ].
  apply (find_none _ _ E) in Hin. simpl in Hin.
  now rewrite str_eqb_refl in Hin.
Qed.

(** Claim C3, as amended.  Logging a completion with a missing or empty
    (falsy) [habitId] answers the validation error, status 400, when the
    parsed body is any value but null, and the internal failure, status
    500, when the body is null, on which no property can be read; with a
    [habitId] that no habit of the current sequence has, it answers the
    not-found error, status 404.  In all these cases the stored habit and
    log sequences are unchanged. *)
Theorem log_completion_rejects rt w body :
  (Get body (lit "habitId") = None ->
   fetch rt (POST "/api/log" (Some body)) w
   = (Response_text "Internal error" 500, w)) /\
  (forall v,
     Get body (lit "habitId") = Some v ->
     (truthy v = false ->
      fetch rt (POST "/api/log" (Some body)) w
      = (Response_text "Missing habitId" 400, w)) /\
     (truthy v = true ->
      (forall h, In h (habits (stored_state w)) -> v <> VStr (id h)) ->
      fetch rt (POST "/api/log" (Some body)) w
      = (Response_text "Habit not found" 404, loaded w) /\
      habits (stored_state (loaded w)) = habits (stored_state w) /\
      logs (stored_state (loaded w)) = logs (stored_state w))).
Proof.
  unfold fetch. rewrite handle_POST_log. split.
  - intros Hnull. run. rewrite Hnull. reflexivity.
  - intros v Hget. split.
    + intros Hv. run. rewrite Hget. run. rewrite Hv. reflexivity.
    + intros Hv Hnone. rewrite stored_state_loaded.
      split; [ | split; reflexivity ].
      run. rewrite Hget. run. rewrite Hv. cbn [negb]. run.
      rewrite loadState_spec. run.
      now rewrite (find_habit_none _ _ Hnone).
Qed.

(** Claim C6, as amended.  The coach operation with a missing, empty or
    whitespace-only message answers the validation error, status 400, when
    the parsed body is any value but null, and the internal failure,
    status 500, when the body is null, on which no property can be read.
    In both cases the world is left as it was: the record of calls to the
    text-generation service is unchanged, so the service is not invoked. *)
Theorem coach_rejects_blank_message rt w body :
  (Get body (lit "message") = None ->
   fetch rt (POST "/api/coach" (Some body)) w
   = (Response_text "Internal error" 500, w) /\
   AI_calls (snd (fetch rt (POST "/api/coach" (Some body)) w)) = AI_calls w) /\
  (forall v,
     Get body (lit "message") = Some v ->
     truthy v = false \/ (exists m, v = VStr m /\ forallb isWhiteSpace m = true) ->
     fetch rt (POST "/api/coach" (Some body)) w
     = (Response_text "Missing message" 400, w) /\
     AI_calls (snd (fetch rt (POST "/api/coach" (Some body)) w)) = AI_calls w).
Proof.
  split.
  - intros Hnull.
    assert (H : fetch rt (POST "/api/coach" (Some body)) w
                = (Response_text "Internal error" 500, w)).
    { unfold fetch. rewrite handle_POST_coach. run. rewrite Hnull. reflexivity. }
    rewrite H. split; reflexivity.
  - intros v Hget Hblank.
    assert (H : fetch rt (POST "/api/coach" (Some body)) w
                = (Response_text "Missing message" 400, w)).
    { unfold fetch. rewrite handle_POST_coach. run. rewrite Hget. run.
      destruct Hblank as [Hv | (m & -> & Hm)].
      - rewrite Hv. reflexivity.
      - destruct (truthy (VStr m)); run;
          [ now rewrite (trim_blank m Hm) | reflexivity ]. }
    rewrite H. split; reflexivity.
Qed.

(** ** Reads: claim C7 *)

Lemma state_kept_refl w : state_kept w w.
Proof. unfold state_kept. auto. Qed.

Lemma state_kept_loaded w calls :
  state_kept w {| storage := storage (loaded w); AI_calls := calls |}.
Proof. destruct w as [[s | ] c]; unfold state_kept; cbn; auto. Qed.

Lemma state_kept_loaded' w : state_kept w (loaded w).
Proof. destruct w as [[s | ] c]; unfold state_kept; cbn; auto. Qed.

Lemma loaded_idempotent w : loaded (loaded w) = loaded w.
Proof. destruct w as [[s | ] c]; reflexivity. Qed.

(** The run of [GET /api/state]. *)
Lemma get_state_run rt w :
  fetch rt (GET "/api/state") w
  = (match computeStats (stored_state w) (Date_now rt) with
     | Some stats => Response_json (StateJson (stored_state w) stats)
     | None => Response_text "Internal error" 500
     end, loaded w).
Proof.
  unfold fetch. rewrite handle_GET_state. run. rewrite loadState_spec. run.
  destruct (computeStats (stored_state w) (Date_now rt)); reflexivity.
Qed.

Lemma coach_keeps_state rt parsed w :
  state_kept w (snd (fetch rt (POST "/api/coach" parsed) w)).
Proof.
  unfold fetch. rewrite handle_POST_coach.
  destruct parsed as [body | ]; run; [ | apply state_kept_refl ].
  destruct (Get body (lit "message")) as [v | ]; run; [ | apply state_kept_refl ].
  assert (Hrest : forall message,
    state_kept w (snd
      match
        match trim message with
        | [] => ret (Response_text "Missing message" 400)
        | _ :: _ =>
            state <- loadState ;;
            stats <- lift (computeStats state (Date_now rt)) ;;
            summary <- lift (statsSummary stats) ;;
            aiResponse <- AI_run rt AI_model
              (systemPrompt
                 match habits state with
                 | [] => lit "The user has not created any habits yet."
                 | _ :: _ => summary
                 end (trim message)) ;;
            ret (Response_json (CoachJson aiResponse stats))
        end w
      with
      | (Normal response, w') => (response, w')
      | (Throw, w') => (Response_text "Internal error" 500, w')
      end)).
  { intros message. destruct (trim message) as [ | c m]; run;
      [ apply state_kept_refl | ].
    rewrite loadState_spec. run.
    destruct (computeStats (stored_state w) (Date_now rt)) as [stats | ]; run;
      [ | apply state_kept_loaded' ].
    destruct (statsSummary stats) as [summary | ]; run;
      [ | apply state_kept_loaded' ].
    unfold AI_run. destruct (AI_reply rt _); apply state_kept_loaded. }
  destruct (truthy v).
  - destruct v; run; try apply state_kept_refl. apply Hrest.
  - run. apply Hrest.
Qed.

(** Claim C7.  Getting the state and asking the coach do not mutate the
    user's state: after either operation, whatever its outcome, the
    persisted habit sequence and log sequence are what they were before it
    (the stored blob is untouched, but for an unset key, which [loadState]
    sets to the empty state that an unset key stands for). *)
Theorem get_state_and_coach_keep_state rt parsed w :
  state_kept w (snd (fetch rt (GET "/api/state") w)) /\
  state_kept w (snd (fetch rt (POST "/api/coach" parsed) w)).
Proof.
  split.
  - rewrite get_state_run. apply state_kept_loaded'.
  - apply coach_keeps_state.
Qed.

(** Whether [computeStats] throws depends on the habits alone. *)
Lemma computeStats_defined state now now' stats :
  computeStats state now = Some stats ->
  exists stats', computeStats state now' = Some stats'.
Proof.
  unfold computeStats. generalize (habits state) as hs. intros hs. revert stats.
  induction hs as [ | h hs IH]; simpl; intros stats H; [ eauto | ].
  destruct (habit_stat state (now - week_ms) h) as [s | ] eqn:Es;
    [ | discriminate H ].
  destruct (habit_stat_defined _ _ state (now' - week_ms) _ _ Es) as [s' ->].
  cbn [obind] in *.
  destruct (map_throwing _ hs) as [ys | ]; [ | discriminate H ].
  destruct (IH ys eq_refl) as [ys' ->]. cbn [obind]. eauto.
Qed.

(** ** Writes: appending a log *)

(** The stat of a habit once [log], stamped inside the window, is appended
    to the logs. *)
Lemma habit_stat_after_log state hs' weekAgo habit log s :
  habit_stat state weekAgo habit = Some s ->
  weekAgo <= timestamp log ->
  exists s',
    habit_stat {| habits := hs'; logs := logs state ++ [log] |} weekAgo habit
    = Some s' /\
    completedLast7Days s'
    = (completedLast7Days s
       + if strict_eq_str (habitId log) (id habit) then 1 else 0)%nat.
Proof.
  intros Hs Hin.
  destruct (habit_stat_defined _ _
              {| habits := hs'; logs := logs state ++ [log] |} weekAgo _ _ Hs)
    as [s' Hs'].
  exists s'. split; [ exact Hs' | ].
  apply habit_stat_inv in Hs as (tpw & t & _ & _ & ->).
  apply habit_stat_inv in Hs' as (tpw' & t' & _ & _ & ->).
  cbn [completedLast7Days logs]. rewrite filter_app, length_app. f_equal.
  cbn [filter]. unfold in_last7 at 1.
  replace (weekAgo <=? timestamp log) with true
    by (symmetry; apply Z.leb_le; exact Hin).
  rewrite andb_true_r.
  destruct (strict_eq_str (habitId log) (id habit)); reflexivity.
Qed.

Lemma computeStats_after_log state now log stats :
  now - week_ms <= timestamp log ->
  computeStats state now = Some stats ->
  exists stats',
    computeStats {| habits := habits state; logs := logs state ++ [log] |} now
    = Some stats' /\
    map completedLast7Days stats'
    = map (fun hs => (completedLast7Days (snd hs)
                      + if strict_eq_str (habitId log) (id (fst hs))
                        then 1 else 0)%nat)
          (combine (habits state) stats).
Proof.
  intros Hin. unfold computeStats. cbn [habits].
  generalize (habits state) at 1 3 4 as hs. intros hs. revert stats.
  induction hs as [ | h hs IH]; simpl; intros stats H.
  - injection H as <-. eauto.
  - destruct (habit_stat state (now - week_ms) h) as [s | ] eqn:Es;
      [ | discriminate H ].
    cbn [obind] in H.
    destruct (map_throwing _ hs) as [ys | ] eqn:Eys; [ | discriminate H ].
    cbn [obind] in H. injection H as <-.
    destruct (habit_stat_after_log _ (habits state) _ _ log _ Es Hin)
      as (s' & -> & Hc).
    destruct (IH ys eq_refl) as (ys' & -> & Hm).
    cbn [obind]. eexists. split; [ reflexivity | ].
    cbn [map combine fst snd]. now rewrite Hc, Hm.
Qed.

(** Creating a habit from a body whose four fields are truthy stores the
    state with the new habit appended, whatever the values are. *)
Lemma create_habit_accepts_truthy_fields rt w body n f t p :
  Get body (lit "name") = Some n -> truthy n = true ->
  Get body (lit "frequency") = Some f -> truthy f = true ->
  Get body (lit "targetPerPeriod") = Some t -> truthy t = true ->
  Get body (lit "period") = Some p -> truthy p = true ->
  snd (fetch rt (POST "/api/habits" (Some body)) w)
  = {| storage :=
         Some {| habits := habits (stored_state w)
                           ++ [ {| id := randomUUID rt; name := n;
                                   frequency := f; targetPerPeriod := t;
                                   period := p; createdAt := Date_new rt |} ];
                 logs := logs (stored_state w) |};
       AI_calls := AI_calls w |}.
Proof.
  intros Hn Tn Hf Tf Ht Tt Hp Tp.
  unfold fetch. rewrite handle_POST_habits. run.
  rewrite Hn, Hf, Ht, Hp. run. rewrite Tn, Tf, Tt, Tp. cbn [negb]. run.
  rewrite loadState_spec. run. rewrite AI_calls_loaded.
  match goal with |- context [computeStats ?s ?n] => destruct (computeStats s n) end;
    reflexivity.
Qed.


(** ** Further properties: the runs of the routes *)

Lemma handle_cases rt request :
  handle rt request = route_state rt \/
  handle rt request = route_habits rt (json request) \/
  handle rt request = route_log rt (json request) \/
  (handle rt request = route_coach rt (json request) /\
   method request = lit "POST" /\ pathname request = lit "/api/coach") \/
  handle rt request = ret (Response_text "Not found" 404).
Proof.
  unfold handle.
  destruct (str_is (method request) "GET" && str_is (pathname request) "/api/state");
    [ left; reflexivity | right ].
  destruct (str_is (method request) "POST" && str_is (pathname request) "/api/habits");
    [ left; reflexivity | right ].
  destruct (str_is (method request) "POST" && str_is (pathname request) "/api/log");
    [ left; reflexivity | right ].
  destruct (str_is (method request) "POST" && str_is (pathname request) "/api/coach")
    eqn:E; [ left | right; reflexivity ].
  apply andb_true_iff in E as [Em Ep]. apply str_eqb_eq in Em, Ep. auto.
Qed.

(** The run of creating a habit from a body whose fields can be read. *)
Lemma create_habit_run rt body n f t p w :
  Get body (lit "name") = Some n ->
  Get body (lit "frequency") = Some f ->
  Get body (lit "targetPerPeriod") = Some t ->
  Get body (lit "period") = Some p ->
  catching (route_habits rt (Some body)) w
  = if truthy n && truthy f && truthy t && truthy p
    then (match computeStats
                  {| habits := habits (stored_state w) ++ [new_habit rt n f t p];
                     logs := logs (stored_state w) |} (Date_now rt) with
          | Some stats =>
              Response_json
                (HabitJson (new_habit rt n f t p)
                   {| habits := habits (stored_state w) ++ [new_habit rt n f t p];
                      logs := logs (stored_state w) |} stats)
          | None => internal_error
          end, with_habit w (new_habit rt n f t p))
    else (Response_text "Invalid habit payload" 400, w).
Proof.
  intros Hn Hf Ht Hp. run. rewrite Hn, Hf, Ht, Hp. run.
  destruct (truthy n), (truthy f), (truthy t), (truthy p); try reflexivity.
  cbn [negb andb]. run. rewrite loadState_spec. run. rewrite AI_calls_loaded.
  unfold with_habit, new_habit.
  match goal with |- context [computeStats ?s ?n] => destruct (computeStats s n) end;
    reflexivity.
Qed.

(** The run of logging a completion from a body whose field can be read. *)
Lemma log_completion_run rt body v w :
  Get body (lit "habitId") = Some v ->
  catching (route_log rt (Some body)) w
  = if truthy v
    then match find_habit v (habits (stored_state w)) with
         | None => (Response_text "Habit not found" 404, loaded w)
         | Some _ =>
             (match computeStats
                      {| habits := habits (stored_state w);
                         logs := logs (stored_state w) ++ [new_log rt v] |}
                      (Date_now rt) with
              | Some stats =>
                  Response_json
                    (LogJson (new_log rt v)
                       {| habits := habits (stored_state w);
                          logs := logs (stored_state w) ++ [new_log rt v] |} stats)
              | None => internal_error
              end, with_log w (new_log rt v))
         end
    else (Response_text "Missing habitId" 400, w).
Proof.
  intros Hv. run. rewrite Hv. run.
  destruct (truthy v); [ | reflexivity ].
  cbn [negb]. run. rewrite loadState_spec. run.
  destruct (find_habit v (habits (stored_state w))); [ | reflexivity ].
  run. rewrite AI_calls_loaded. unfold with_log, new_log.
  match goal with |- context [computeStats ?s ?n] => destruct (computeStats s n) end;
    reflexivity.
Qed.

(** The run of the coach on a message that is not blank. *)
Lemma coach_run rt body m w :
  Get body (lit "message") = Some (VStr m) ->
  trim m <> [] ->
  catching (route_coach rt (Some body)) w
  = match computeStats (stored_state w) (Date_now rt) with
    | None => (internal_error, loaded w)
    | Some stats =>
        match statsSummary stats with
        | None => (internal_error, loaded w)
        | Some summary =>
            let prompt :=
              systemPrompt
                match habits (stored_state w) with
                | [] => lit "The user has not created any habits yet."
                | _ :: _ => summary
                end (trim m) in
            (match AI_reply rt prompt with
             | Some reply => Response_json (CoachJson reply stats)
             | None => internal_error
             end, with_AI_call w prompt)
        end
    end.
Proof.
  intros Hget Hm. run. rewrite Hget. run.
  assert (Ht : truthy (VStr m) = true).
  { destruct m; [ | reflexivity ]. now contradiction Hm. }
  rewrite Ht. run.
  destruct (trim m) as [ | c rest] eqn:E; [ now contradiction Hm | ].
  run. rewrite loadState_spec. run.
  destruct (computeStats (stored_state w) (Date_now rt)) as [stats | ];
    [ | reflexivity ].
  run. destruct (statsSummary stats) as [summary | ]; [ | reflexivity ].
  run. unfold AI_run, with_AI_call. rewrite AI_calls_loaded.
  destruct (AI_reply rt _); reflexivity.
Qed.

(** ** Further properties: what a request can do *)

Lemma state_outcome rt request w :
  outcome request w (fst (catching (route_state rt) w))
    (snd (catching (route_state rt) w)).
Proof.
  run. rewrite loadState_spec. run.
  destruct (computeStats (stored_state w) (Date_now rt)); cbn [fst snd].
  - apply state_read.
  - apply refused; auto.
Qed.

Lemma habits_outcome rt request parsed w :
  outcome request w (fst (catching (route_habits rt parsed) w))
    (snd (catching (route_habits rt parsed) w)).
Proof.
  destruct parsed as [body | ]; [ | apply refused; auto ].
  destruct (Get body (lit "name")) as [n | ] eqn:Hn.
  - destruct (Get_defined _ _ _ (lit "frequency") Hn) as [f Hf].
    destruct (Get_defined _ _ _ (lit "targetPerPeriod") Hn) as [t Ht].
    destruct (Get_defined _ _ _ (lit "period") Hn) as [p Hp].
    rewrite (create_habit_run rt body n f t p w Hn Hf Ht Hp).
    destruct (truthy n && truthy f && truthy t && truthy p); cbn [fst snd].
    + apply habit_created.
      destruct (computeStats _ (Date_now rt)) as [stats | ]; eauto.
    + apply refused; auto.
  - run. rewrite Hn. apply refused; auto.
Qed.

Lemma log_outcome rt request parsed w :
  outcome request w (fst (catching (route_log rt parsed) w))
    (snd (catching (route_log rt parsed) w)).
Proof.
  destruct parsed as [body | ]; [ | apply refused; auto ].
  destruct (Get body (lit "habitId")) as [v | ] eqn:Hv.
  - rewrite (log_completion_run rt body v w Hv).
    destruct (truthy v); [ | apply refused; auto ].
    destruct (find_habit v (habits (stored_state w))) as [h | ] eqn:Hfind;
      cbn [fst snd]; [ | apply refused; auto ].
    apply find_some in Hfind as [Hin Heq]. apply strict_eq_str_spec in Heq.
    apply (log_created request w (new_log rt v) h); [ exact Hin | exact Heq | ].
    destruct (computeStats _ (Date_now rt)) as [stats | ]; eauto.
  - run. rewrite Hv. apply refused; auto.
Qed.

Lemma coach_outcome rt request parsed w :
  method request = lit "POST" ->
  pathname request = lit "/api/coach" ->
  outcome request w (fst (catching (route_coach rt parsed) w))
    (snd (catching (route_coach rt parsed) w)).
Proof.
  intros Hmethod Hpath.
  destruct parsed as [body | ]; [ | apply refused; auto ].
  destruct (Get body (lit "message")) as [v | ] eqn:Hv;
    [ | run; rewrite Hv; apply refused; auto ].
  assert (Hblank : forall v', Get body (lit "message") = Some v' ->
            truthy v' = false \/ (exists m, v' = VStr m /\ trim m = []) ->
            catching (route_coach rt (Some body)) w
            = (Response_text "Missing message" 400, w)).
  { intros v' Hv' Hb. run. rewrite Hv'. run.
    destruct Hb as [Hf | (m & -> & Hm)].
    - rewrite Hf. reflexivity.
    - destruct (truthy (VStr m)); run; [ now rewrite Hm | reflexivity ]. }
  destruct (truthy v) eqn:Ht.
  - destruct v as [ | | b | x | m | elems | props];
      try (run; rewrite Hv; run; rewrite Ht; apply refused; auto).
    destruct (trim m) as [ | c rest] eqn:Em.
    + rewrite (Hblank _ Hv); [ apply refused; auto | eauto ].
    + rewrite (coach_run rt body m w Hv) by (rewrite Em; discriminate).
      destruct (computeStats (stored_state w) (Date_now rt)) as [stats | ];
        [ | apply refused; auto ].
      destruct (statsSummary stats) as [summary | ]; [ | apply refused; auto ].
      cbn [fst snd]. apply coach_asked; [ exact Hmethod | exact Hpath | ].
      destruct (AI_reply rt _); eauto.
  - rewrite (Hblank _ Hv); [ apply refused; auto | auto ].
Qed.

(** Every request ends in one of the shapes of [outcome]. *)
Lemma fetch_outcome rt request w :
  outcome request w (fst (fetch rt request w)) (snd (fetch rt request w)).
Proof.
  unfold fetch.
  destruct (handle_cases rt request) as [-> | [-> | [-> | [(-> & Hm & Hp) | ->]]]].
  - apply state_outcome.
  - apply habits_outcome.
  - apply log_outcome.
  - now apply coach_outcome.
  - apply refused; auto.
Qed.

Lemma stored_state_with_habit w h :
  stored_state (with_habit w h)
  = {| habits := habits (stored_state w) ++ [h]; logs := logs (stored_state w) |}.
Proof. reflexivity. Qed.

Lemma stored_state_with_log w l :
  stored_state (with_log w l)
  = {| habits := habits (stored_state w); logs := logs (stored_state w) ++ [l] |}.
Proof. reflexivity. Qed.

Lemma stored_state_with_AI_call w prompt :
  stored_state (with_AI_call w prompt) = stored_state w.
Proof. destruct w as [[s | ] calls]; reflexivity. Qed.

(** An outcome extends the stored sequences by at most one element. *)
Lemma outcome_extends request w r w' :
  outcome request w r w' ->
  exists hs ls,
    habits (stored_state w') = habits (stored_state w) ++ hs /\
    logs (stored_state w') = logs (stored_state w) ++ ls /\
    (List.length hs + List.length ls <= 1)%nat.
Proof.
  intros H. destruct H as [text st w' _ [-> | ->] | stats | h r _ | l h r _ _ _
                          | prompt r _ _ _];
    rewrite ?stored_state_loaded, ?stored_state_with_AI_call;
    try (exists [], []; rewrite !app_nil_r; simpl; auto; fail).
  - exists [h], []. rewrite stored_state_with_habit, app_nil_r. simpl. auto.
  - exists [], [l]. rewrite stored_state_with_log, app_nil_r. simpl. auto.
Qed.

Lemma fetch_all_extends steps w :
  exists hs ls,
    habits (stored_state (fetch_all steps w)) = habits (stored_state w) ++ hs /\
    logs (stored_state (fetch_all steps w)) = logs (stored_state w) ++ ls /\
    (List.length hs + List.length ls <= List.length steps)%nat.
Proof.
  revert w. induction steps as [ | [rt request] steps IH]; intros w; simpl.
  - exists [], []. rewrite !app_nil_r. auto.
  - destruct (outcome_extends _ _ _ _ (fetch_outcome rt request w))
      as (hs1 & ls1 & Hh1 & Hl1 & Hlen1).
    destruct (IH (snd (fetch rt request w))) as (hs2 & ls2 & Hh2 & Hl2 & Hlen2).
    exists (hs1 ++ hs2), (ls1 ++ ls2).
    rewrite Hh2, Hl2, Hh1, Hl1, <- !app_assoc, !length_app.
    repeat split; lia.
Qed.

Lemma outcome_keeps_references request w r w' :
  outcome request w r w' ->
  logs_refer_to_habits (stored_state w) ->
  logs_refer_to_habits (stored_state w').
Proof.
  intros H Hrefs.
  destruct H as [text st w' _ [-> | ->] | stats | h r _ | l h r Hin Hid _
                | prompt r _ _ _];
    rewrite ?stored_state_loaded, ?stored_state_with_AI_call; trivial.
  - intros l Hl. cbn [stored_state with_habit storage logs habits] in *.
    destruct (Hrefs l Hl) as (h' & Hin' & Hid'). exists h'. split; [ | exact Hid' ].
    apply in_or_app. auto.
  - intros l' Hl'. cbn [stored_state with_log storage logs habits] in *.
    apply in_app_or in Hl' as [Hl' | [<- | []]]; eauto.
Qed.

(** ** Further properties of the actor *)

(** X1.  However many requests of whatever kind an actor serves, its habit
    and log sequences only grow at the end: what was stored stays, in
    place and unchanged, and the requests add no more elements than there
    were requests. *)
Theorem stored_sequences_only_grow steps w :
  exists hs ls,
    habits (stored_state (fetch_all steps w)) = habits (stored_state w) ++ hs /\
    logs (stored_state (fetch_all steps w)) = logs (stored_state w) ++ ls /\
    (List.length hs + List.length ls <= List.length steps)%nat.
Proof.
  revert w. induction steps as [ | [rt request] steps IH]; intros w.
  - exists [], []. cbn [fetch_all]. rewrite !app_nil_r. auto.
  - cbn [fetch_all List.length].
    destruct (outcome_extends _ _ _ _ (fetch_outcome rt request w))
      as (hs1 & ls1 & Hh1 & Hl1 & Hlen1).
    destruct (IH (snd (fetch rt request w))) as (hs2 & ls2 & Hh2 & Hl2 & Hlen2).
    exists (hs1 ++ hs2), (ls1 ++ ls2).
    rewrite Hh2, Hl2, Hh1, Hl1, <- !app_assoc, !length_app.
    repeat split; lia.
Qed.

(** X2.  Starting from an unset store, after any sequence of requests
    every stored log carries the id of a stored habit. *)
Theorem logs_always_refer_to_habits steps calls :
  logs_refer_to_habits
    (stored_state (fetch_all steps {| storage := None; AI_calls := calls |})).
Proof.
  assert (H : forall w, logs_refer_to_habits (stored_state w) ->
                        logs_refer_to_habits (stored_state (fetch_all steps w))).
  { induction steps as [ | [rt request] steps IH]; intros w Hw; simpl; [ exact Hw | ].
    apply IH. apply (outcome_keeps_references _ _ _ _ (fetch_outcome rt request w) Hw). }
  apply H. intros l [].
Qed.

(** X3.  A request calls the text-generation service at most once, always
    with the one fixed model, and only when it is a POST to /api/coach;
    calls recorded earlier are never dropped. *)
Theorem AI_is_called_at_most_once rt request w :
  AI_calls (snd (fetch rt request w)) = AI_calls w \/
  (exists prompt,
     AI_calls (snd (fetch rt request w)) = AI_calls w ++ [(AI_model, prompt)] /\
     method request = lit "POST" /\ pathname request = lit "/api/coach").
Proof.
  destruct (fetch_outcome rt request w)
    as [text st w' _ [-> | ->] | stats | h r _ | l h r _ _ _ | prompt r Hm Hp _];
    rewrite ?AI_calls_loaded; auto.
  right. exists prompt. auto.
Qed.

(** X4.  A response with status 400 or 404 comes with no change: the habit
    and log sequences are as before and the text-generation service was
    not called. *)
Theorem client_errors_change_nothing rt request w :
  status (fst (fetch rt request w)) = 400 \/
  status (fst (fetch rt request w)) = 404 ->
  state_kept w (snd (fetch rt request w)) /\
  AI_calls (snd (fetch rt request w)) = AI_calls w.
Proof.
  intros Hst.
  destruct (fetch_outcome rt request w)
    as [text st w' _ [-> | ->] | stats | h r [-> | (stats & ->)]
       | l h r _ _ [-> | (stats & ->)]
       | prompt r _ _ [-> | (reply & stats & ->)]];
    cbn [status Response_json Response_text internal_error] in Hst;
    try (destruct Hst as [Hst | Hst]; discriminate Hst).
  - split; [ apply state_kept_refl | reflexivity ].
  - split; [ apply state_kept_loaded' | apply AI_calls_loaded ].
Qed.


Lemma habit_stat_throws_iff state weekAgo habit :
  habit_stat state weekAgo habit = None <->
  ToNumber (targetPerPeriod habit) = None.
Proof.
  unfold habit_stat.
  destruct (strict_eq_str (period habit) (lit "week")); cbn [obind];
    destruct (ToNumber (targetPerPeriod habit)); cbn [obind ToNumber];
    split; intros H; (reflexivity || discriminate H).
Qed.

Lemma map_throwing_none_iff {A B} (f : A -> option B) xs :
  map_throwing f xs = None <-> exists x, In x xs /\ f x = None.
Proof.
  induction xs as [ | x xs IH]; simpl.
  - split; [ discriminate | intros (x & [] & _) ].
  - destruct (f x) as [y | ] eqn:Ex; cbn [obind].
    + destruct (map_throwing f xs) as [ys | ]; cbn [obind].
      * split; [ discriminate | ]. intros (x' & [<- | Hin] & Hx'); [ congruence | ].
        assert (Hnone : Some ys = None) by (apply IH; eauto). discriminate Hnone.
      * split; [ | reflexivity ]. intros _.
        destruct (proj1 IH eq_refl) as (x' & Hin & Hx'). eauto.
    + split; [ | reflexivity ]. eauto.
Qed.

Lemma computeStats_none_iff state now :
  computeStats state now = None <->
  exists h, In h (habits state) /\ ToNumber (targetPerPeriod h) = None.
Proof.
  unfold computeStats. rewrite map_throwing_none_iff.
  split; intros (h & Hin & Hh); exists h; split; trivial;
    now apply (habit_stat_throws_iff state (now - week_ms) h).
Qed.

Lemma fetch_POST_habits rt parsed w :
  fetch rt (POST "/api/habits" parsed) w = catching (route_habits rt parsed) w.
Proof. reflexivity. Qed.

Lemma fetch_POST_log rt parsed w :
  fetch rt (POST "/api/log" parsed) w = catching (route_log rt parsed) w.
Proof. reflexivity. Qed.

Lemma fetch_POST_coach rt parsed w :
  fetch rt (POST "/api/coach" parsed) w = catching (route_coach rt parsed) w.
Proof. reflexivity. Qed.

(** X6.  Creating a habit from a body whose four fields are truthy stores
    the prior state with one habit appended, made of the four values as
    they are, the fresh id and the creation instant; logs and recorded AI
    calls are untouched.  The answer carries that habit, that state and
    its stats, or is the internal failure when the stats cannot be
    computed, the habit being stored all the same. *)
Theorem create_habit_appends rt w body n f t p :
  Get body (lit "name") = Some n -> truthy n = true ->
  Get body (lit "frequency") = Some f -> truthy f = true ->
  Get body (lit "targetPerPeriod") = Some t -> truthy t = true ->
  Get body (lit "period") = Some p -> truthy p = true ->
  let h := new_habit rt n f t p in
  let state' := {| habits := habits (stored_state w) ++ [h];
                   logs := logs (stored_state w) |} in
  fetch rt (POST "/api/habits" (Some body)) w
  = (match computeStats state' (Date_now rt) with
     | Some stats => Response_json (HabitJson h state' stats)
     | None => internal_error
     end,
     {| storage := Some state'; AI_calls := AI_calls w |}).
Proof.
  intros Hn Tn Hf Tf Ht Tt Hp Tp h state'.
  rewrite fetch_POST_habits, (create_habit_run rt body n f t p w Hn Hf Ht Hp).
  rewrite Tn, Tf, Tt, Tp. reflexivity.
Qed.

(** X7.  The stats cannot be computed exactly when some stored habit has a
    [targetPerPeriod] that does not convert to a number; neither the logs
    nor the clock matter. *)
Theorem computeStats_throws_iff state now :
  computeStats state now = None <->
  exists h, In h (habits state) /\ ToNumber (targetPerPeriod h) = None.
Proof.
  unfold computeStats. split.
  - intros H. apply map_throwing_none_iff in H as (h & Hin & Hh).
    exists h. split; [ exact Hin | ].
    now apply (habit_stat_throws_iff state (now - week_ms) h).
  - intros (h & Hin & Hh). apply map_throwing_none_iff.
    exists h. split; [ exact Hin | ].
    now apply (habit_stat_throws_iff state (now - week_ms) h).
Qed.

(** X8.  A habit created with a [targetPerPeriod] that does not convert to
    a number is stored although the creation answers the internal failure,
    and from then on, whatever requests follow, getting the state answers
    the internal failure. *)
Theorem unconvertible_target_breaks_get_state rt w body n f t p steps rt' :
  Get body (lit "name") = Some n -> truthy n = true ->
  Get body (lit "frequency") = Some f -> truthy f = true ->
  Get body (lit "targetPerPeriod") = Some t -> truthy t = true ->
  Get body (lit "period") = Some p -> truthy p = true ->
  ToNumber t = None ->
  let created := fetch rt (POST "/api/habits" (Some body)) w in
  fst created = internal_error /\
  snd created = with_habit w (new_habit rt n f t p) /\
  fst (fetch rt' (GET "/api/state") (fetch_all steps (snd created)))
  = internal_error.
Proof.
  intros Hn Tn Hf Tf Ht Tt Hp Tp Hconv created.
  assert (Hcreated : created
            = (internal_error, with_habit w (new_habit rt n f t p))).
  { subst created.
    rewrite fetch_POST_habits, (create_habit_run rt body n f t p w Hn Hf Ht Hp).
    rewrite Tn, Tf, Tt, Tp. cbn [andb].
    replace (computeStats _ (Date_now rt)) with (@None (list Stat));
      [ reflexivity | ].
    symmetry. apply computeStats_none_iff. exists (new_habit rt n f t p).
    split; [ apply in_or_app; simpl; auto | exact Hconv ]. }
  rewrite Hcreated. cbn [fst snd]. repeat split.
  rewrite get_state_run. cbn [fst].
  replace (computeStats _ (Date_now rt')) with (@None (list Stat));
    [ reflexivity | ].
  symmetry. apply computeStats_none_iff. exists (new_habit rt n f t p).
  split; [ | exact Hconv ].
  destruct (fetch_all_extends steps (with_habit w (new_habit rt n f t p)))
    as (hs & ls & -> & _ & _).
  rewrite stored_state_with_habit. cbn [habits].
  apply in_or_app. left. apply in_or_app. simpl. auto.
Qed.

Lemma unrouted_run rt request w :
  str_is (method request) "GET" && str_is (pathname request) "/api/state" = false ->
  str_is (method request) "POST" && str_is (pathname request) "/api/habits" = false ->
  str_is (method request) "POST" && str_is (pathname request) "/api/log" = false ->
  str_is (method request) "POST" && str_is (pathname request) "/api/coach" = false ->
  fetch rt request w = (Response_text "Not found" 404, w).
Proof.
  intros E1 E2 E3 E4. unfold fetch, handle. rewrite E1, E2, E3, E4. reflexivity.
Qed.

(** X9.  A request that is none of GET /api/state, POST /api/habits,
    POST /api/log and POST /api/coach is answered 404; its body is not
    read and the world is untouched. *)
Theorem other_requests_are_not_found rt request w :
  ~ (method request = lit "GET" /\ pathname request = lit "/api/state") ->
  ~ (method request = lit "POST" /\
     (pathname request = lit "/api/habits" \/
      pathname request = lit "/api/log" \/
      pathname request = lit "/api/coach")) ->
  fetch rt request w = (Response_text "Not found" 404, w).
Proof.
  intros Hget Hpost.
  assert (E : forall a b, ~ (method request = lit a /\ pathname request = lit b) ->
                str_is (method request) a && str_is (pathname request) b = false).
  { intros a b H. apply not_true_is_false. intros E.
    apply andb_true_iff in E as [Ea Eb]. apply str_eqb_eq in Ea, Eb. auto. }
  apply unrouted_run; apply E; try exact Hget;
    intros [? ?]; apply Hpost; auto.
Qed.

(** X10.  With no habit stored, whether the store is unset or holds logs
    only, getting the state cannot fail: it answers 200 with the state and
    an empty list of stats, and the store holds that state afterwards. *)
Theorem get_state_without_habits rt w :
  habits (stored_state w) = [] ->
  fetch rt (GET "/api/state") w
  = (Response_json (StateJson (stored_state w) []), loaded w) /\
  storage (loaded w) = Some (stored_state w).
Proof.
  intros Hnone. split; [ | apply storage_loaded ].
  rewrite get_state_run. unfold computeStats. now rewrite Hnone.
Qed.

(** ** Further properties of the coach *)

Lemma trimStart_head c s : isWhiteSpace c = false -> trimStart (c :: s) = c :: s.
Proof. intros H. simpl. now rewrite H. Qed.

Lemma trimEnd_last s c : isWhiteSpace c = false -> trimEnd (s ++ [c]) = s ++ [c].
Proof.
  intros H. unfold trimEnd. rewrite rev_app_distr. cbn [rev app].
  rewrite (trimStart_head c (rev s) H). cbn [rev]. now rewrite rev_involutive.
Qed.

Lemma trimEnd_newline s : trimEnd (s ++ nl) = trimEnd s.
Proof. unfold trimEnd. rewrite rev_app_distr. reflexivity. Qed.

Lemma join_nonempty sep b rest : b <> [] -> join sep (b :: rest) <> [].
Proof.
  intros Hb. destruct rest as [ | b' rest]; simpl; [ exact Hb | ].
  destruct b; [ contradiction | discriminate ].
Qed.

Lemma stat_block_nonempty s b : stat_block s = Some b -> b <> [].
Proof.
  unfold stat_block.
  destruct (ToString (stat_name s)); [ | discriminate ]. cbn [obind].
  destruct (ToString (VNum _)); [ | discriminate ]. cbn [obind].
  destruct (ToString (targetPerWeek s)); [ | discriminate ]. cbn [obind].
  intros [= <-]. discriminate.
Qed.

Lemma map_throwing_length {A B} (f : A -> option B) xs ys :
  map_throwing f xs = Some ys -> List.length ys = List.length xs.
Proof.
  intros H. apply map_throwing_Forall2 in H. symmetry.
  apply (Forall2_length H).
Qed.

(** X11.  Asking the coach with a message that is a string and not blank,
    on a state whose stats and summary can be built, calls the
    text-generation service exactly once, with the fixed model and the
    prompt built from the habit summary and the trimmed message.  The
    service's reply is returned as it is with the stats; when the service
    fails the answer is the internal failure.  Either way the stored state
    is unchanged and the call is recorded. *)
Theorem coach_asks_the_service_once rt w body m stats summary :
  Get body (lit "message") = Some (VStr m) ->
  trim m <> [] ->
  computeStats (stored_state w) (Date_now rt) = Some stats ->
  statsSummary stats = Some summary ->
  let prompt :=
    systemPrompt
      match habits (stored_state w) with
      | [] => lit "The user has not created any habits yet."
      | _ :: _ => summary
      end (trim m) in
  fetch rt (POST "/api/coach" (Some body)) w
  = (match AI_reply rt prompt with
     | Some reply => Response_json (CoachJson reply stats)
     | None => internal_error
     end,
     {| storage := storage (loaded w);
        AI_calls := AI_calls w ++ [(AI_model, prompt)] |}).
Proof.
  intros Hget Hm Hstats Hsummary prompt.
  rewrite fetch_POST_coach, (coach_run rt body m w Hget Hm), Hstats, Hsummary.
  reflexivity.
Qed.

(** X12.  A message that is truthy and not a string (a number, true, an
    array, an object) is answered by the internal failure, not by the
    validation error; nothing is loaded and the service is not called. *)
Theorem coach_non_string_message_fails rt w body v :
  Get body (lit "message") = Some v ->
  truthy v = true ->
  (forall m, v <> VStr m) ->
  fetch rt (POST "/api/coach" (Some body)) w = (internal_error, w).
Proof.
  intros Hget Ht Hns. rewrite fetch_POST_coach. run. rewrite Hget. run.
  rewrite Ht. destruct v; try reflexivity.
  now contradiction (Hns s).
Qed.

(** X13.  The prompt is the fixed template with its first and last line
    break removed: it begins with the coach's instructions and ends with
    the user's message, as given to it, between double quotes. *)
Theorem systemPrompt_shape habitsSummary userMessage :
  systemPrompt habitsSummary userMessage
  = lit "You are an encouraging, practical AI habit coach. " ++ nl
    ++ lit "You see the user's habit definitions and their performance over the last 7 days." ++ nl
    ++ lit "Give clear, concise feedback and *one or two* actionable suggestions." ++ nl
    ++ nl
    ++ lit "Be:" ++ nl
    ++ lit "- Short (2" ++ en_dash ++ lit "4 paragraphs max)" ++ nl
    ++ lit "- Concrete (numbers, patterns, examples)" ++ nl
    ++ lit "- Supportive (no shaming)." ++ nl
    ++ nl
    ++ lit "User's habit data:" ++ nl
    ++ nl
    ++ (match habitsSummary with [] => lit "No data yet." | _ => habitsSummary end) ++ nl
    ++ nl
    ++ lit "User's question or message:" ++ nl
    ++ dquote ++ userMessage ++ dquote.
Proof.
  unfold systemPrompt, trim.
  set (summary := match habitsSummary with [] => lit "No data yet." | _ => habitsSummary end).
  change (trimStart (nl ++ lit "You are an encouraging, practical AI habit coach. " ++ ?rest))
    with (lit "You are an encouraging, practical AI habit coach. " ++ rest).
  repeat rewrite app_assoc.
  rewrite trimEnd_newline.
  change dquote with [34%N] at 2.
  apply trimEnd_last. reflexivity.
Qed.

(** X14.  The habit summary put into the prompt is never empty, so the
    template's fallback text for an empty summary is never used: with no
    habits the summary is the fixed sentence, and otherwise it starts with
    the first habit's block. *)
Theorem habit_summary_is_never_empty state now stats summary :
  computeStats state now = Some stats ->
  statsSummary stats = Some summary ->
  match habits state with
  | [] => lit "The user has not created any habits yet."
  | _ :: _ => summary
  end <> [].
Proof.
  intros Hstats Hsummary.
  destruct (habits state) as [ | h hs] eqn:Eh; [ discriminate | ].
  unfold computeStats in Hstats. apply map_throwing_length in Hstats.
  rewrite Eh in Hstats. destruct stats as [ | s stats]; [ discriminate Hstats | ].
  unfold statsSummary in Hsummary. cbn [map_throwing] in Hsummary.
  destruct (stat_block s) as [b | ] eqn:Eb; [ | discriminate Hsummary ].
  cbn [obind] in Hsummary.
  destruct (map_throwing stat_block stats) as [bs | ]; [ | discriminate Hsummary ].
  cbn [obind] in Hsummary.
  replace summary with (join (nl ++ nl) (b :: bs)) by congruence.
  apply join_nonempty. apply (stat_block_nonempty s b Eb).
Qed.

(** X23.  When the stats cannot be computed, or a habit's name or weekly
    target cannot be written into the summary, asking the coach answers
    the internal failure without calling the text-generation service. *)
Theorem coach_fails_before_asking rt w body m :
  Get body (lit "message") = Some (VStr m) ->
  trim m <> [] ->
  computeStats (stored_state w) (Date_now rt) = None \/
  (exists stats, computeStats (stored_state w) (Date_now rt) = Some stats /\
                 statsSummary stats = None) ->
  fetch rt (POST "/api/coach" (Some body)) w = (internal_error, loaded w) /\
  AI_calls (loaded w) = AI_calls w.
Proof.
  intros Hget Hm Hfail. split; [ | apply AI_calls_loaded ].
  rewrite fetch_POST_coach, (coach_run rt body m w Hget Hm).
  destruct Hfail as [-> | (stats & -> & ->)]; reflexivity.
Qed.

(** X22.  Every request is answered, with status 200 and a JSON payload
    that carries stats, or with status 400, 404 or 500 and a text. *)
Theorem status_tells_the_payload rt request w :
  (status (fst (fetch rt request w)) = 200 /\
   exists stats, response_stats (fst (fetch rt request w)) = Some stats) \/
  ((status (fst (fetch rt request w)) = 400 \/
    status (fst (fetch rt request w)) = 404 \/
    status (fst (fetch rt request w)) = 500) /\
   exists text, payload (fst (fetch rt request w)) = Text text).
Proof.
  destruct (fetch_outcome rt request w)
    as [text st w' Hst _ | stats | h r [-> | (stats & ->)]
       | l h r _ _ [-> | (stats & ->)]
       | prompt r _ _ [-> | (reply & stats & ->)]];
    cbn [status payload response_stats Response_json Response_text internal_error];
    eauto 6.
Qed.

(** ** Further properties: operations in sequence *)

Lemma log_step rt w body habit :
  In habit (habits (stored_state w)) ->
  id habit <> [] ->
  Get body (lit "habitId") = Some (VStr (id habit)) ->
  snd (fetch rt (POST "/api/log" (Some body)) w)
  = with_log w (new_log rt (VStr (id habit))).
Proof.
  intros Hin Hid Hget.
  rewrite fetch_POST_log, (log_completion_run rt body _ w Hget).
  replace (truthy (VStr (id habit))) with true
    by (destruct (id habit); [ contradiction | reflexivity ]).
  destruct (find_habit_some _ _ Hin) as [h ->]. reflexivity.
Qed.

(** X15.  Logging a completion of an existing habit n times, one request
    after the other, leaves the habits as they were and appends exactly n
    logs, one per request and in the order of the requests. *)
Theorem logging_n_times_appends_n_logs rts w body habit :
  In habit (habits (stored_state w)) ->
  id habit <> [] ->
  Get body (lit "habitId") = Some (VStr (id habit)) ->
  let w' := fetch_all (map (fun rt => (rt, POST "/api/log" (Some body))) rts) w in
  habits (stored_state w') = habits (stored_state w) /\
  logs (stored_state w')
  = logs (stored_state w) ++ map (fun rt => new_log rt (VStr (id habit))) rts.
Proof.
  intros Hin Hid Hget. cbv zeta. revert w Hin.
  induction rts as [ | rt rts IH]; intros w Hin; cbn [map fetch_all].
  - now rewrite app_nil_r.
  - rewrite (log_step rt w body habit Hin Hid Hget).
    destruct (IH (with_log w (new_log rt (VStr (id habit)))) Hin) as [Hh Hl].
    rewrite Hh, Hl, stored_state_with_log. cbn [habits logs].
    now rewrite <- app_assoc.
Qed.

(** X16.  A habit that was just created can be logged under the id it was
    given: after the two requests the store holds the prior state with the
    new habit and one log referring to it. *)
Theorem created_habit_can_be_logged rt1 rt2 w body1 body2 n f t p :
  Get body1 (lit "name") = Some n -> truthy n = true ->
  Get body1 (lit "frequency") = Some f -> truthy f = true ->
  Get body1 (lit "targetPerPeriod") = Some t -> truthy t = true ->
  Get body1 (lit "period") = Some p -> truthy p = true ->
  randomUUID rt1 <> [] ->
  Get body2 (lit "habitId") = Some (VStr (randomUUID rt1)) ->
  snd (fetch rt2 (POST "/api/log" (Some body2))
         (snd (fetch rt1 (POST "/api/habits" (Some body1)) w)))
  = {| storage :=
         Some {| habits := habits (stored_state w) ++ [new_habit rt1 n f t p];
                 logs := logs (stored_state w)
                         ++ [new_log rt2 (VStr (randomUUID rt1))] |};
       AI_calls := AI_calls w |}.
Proof.
  intros Hn Tn Hf Tf Ht Tt Hp Tp Hid Hget.
  rewrite fetch_POST_habits, (create_habit_run rt1 body1 n f t p w Hn Hf Ht Hp).
  rewrite Tn, Tf, Tt, Tp. cbn [andb snd].
  rewrite (log_step rt2 _ body2 (new_habit rt1 n f t p)); [ reflexivity | | | ].
  - rewrite stored_state_with_habit. cbn [habits]. apply in_or_app. simpl. auto.
  - exact Hid.
  - exact Hget.
Qed.

(** ** Further properties of the Stats Engine *)

(** X17.  The stats come one per habit, in the order of the habits, each
    carrying its habit's id and name. *)
Theorem stats_follow_habits state now stats :
  computeStats state now = Some stats ->
  map stat_habitId stats = map id (habits state) /\
  map stat_name stats = map name (habits state).
Proof.
  intros H. apply map_throwing_Forall2 in H.
  induction H as [ | h s hs ss Hs _ [IHid IHname]]; [ split; reflexivity | ].
  apply habit_stat_inv in Hs as (tpw & t & _ & _ & ->).
  cbn [map stat_habitId stat_name]. now rewrite IHid, IHname.
Qed.

Lemma filter_filter_implied {A} (f g : A -> bool) (l : list A) :
  (forall x, In x l -> f x = true -> g x = true) ->
  filter f (filter g l) = filter f l.
Proof.
  induction l as [ | x l IH]; intros H; simpl; [ reflexivity | ].
  assert (IH' : filter f (filter g l) = filter f l)
    by (apply IH; intros; apply H; simpl; auto).
  destruct (g x) eqn:Eg; simpl.
  - now rewrite IH'.
  - destruct (f x) eqn:Ef; [ | exact IH' ].
    rewrite (H x (or_introl eq_refl) Ef) in Eg. discriminate Eg.
Qed.

Lemma map_throwing_ext_in {A B} (f g : A -> option B) xs :
  (forall x, In x xs -> f x = g x) -> map_throwing f xs = map_throwing g xs.
Proof.
  induction xs as [ | x xs IH]; intros H; simpl; [ reflexivity | ].
  rewrite (H x (or_introl eq_refl)), IH; [ reflexivity | ].
  intros; apply H; simpl; auto.
Qed.

(** X18.  Logs that are older than seven days, and logs that carry the id
    of no stored habit, have no effect on the stats: dropping any of them
    leaves what [computeStats] returns unchanged. *)
Theorem stats_ignore_old_and_foreign_logs state now keep :
  (forall l h, In l (logs state) -> In h (habits state) ->
     habitId l = VStr (id h) -> now - week_ms <= timestamp l ->
     keep l = true) ->
  computeStats {| habits := habits state; logs := filter keep (logs state) |} now
  = computeStats state now.
Proof.
  intros Hkeep. unfold computeStats. cbn [habits].
  apply map_throwing_ext_in. intros h Hin.
  unfold habit_stat. cbn [logs].
  rewrite filter_filter_implied; [ reflexivity | ].
  intros l Hl Hcounted. unfold in_last7 in Hcounted.
  apply andb_true_iff in Hcounted as [Hid Hts].
  apply strict_eq_str_spec in Hid. apply Z.leb_le in Hts.
  apply (Hkeep l h Hl Hin Hid Hts).
Qed.

(** X19.  A habit with no completion in the last seven days has the
    completion rate +0, whatever its target. *)
Theorem no_completion_gives_rate_zero state now stats :
  computeStats state now = Some stats ->
  Forall (fun s => completedLast7Days s = 0%nat ->
                   completionRate s = S754_zero false) stats.
Proof.
  intros H. apply map_throwing_Forall2 in H.
  induction H as [ | h s hs ss Hs _ IH]; constructor; [ | exact IH ].
  apply habit_stat_inv in Hs as (tpw & t & _ & _ & ->).
  cbn [completedLast7Days completionRate]. intros ->.
  destruct t as [st | [ | ] | | [ | ] mt et]; reflexivity.
Qed.

(** ** Further properties of the Worker *)

Lemma outside_api_is_unrouted rt request w :
  startsWith (pathname request) (lit "/api/") = false ->
  fetch rt request w = (Response_text "Not found" 404, w).
Proof.
  intros E.
  assert (Hp : forall p : string,
            startsWith (lit p) (lit "/api/") = true ->
            str_is (pathname request) p = false).
  { intros p Hstarts. apply not_true_is_false. intros Hp.
    apply str_eqb_eq in Hp. rewrite Hp, Hstarts in E. discriminate E. }
  apply unrouted_run; rewrite Hp by reflexivity; apply andb_false_r.
Qed.

(** X20.  The Worker answers a request with the answer of the HabitStore
    instance named by the request's user id, and leaves that instance in
    the world the instance's own handler leaves; its check of the /api/
    prefix changes neither. *)
Theorem worker_answers_as_the_users_store rt param request ns :
  fst (worker_fetch rt param request ns)
  = fst (fetch rt request (ns (userId_of param))) /\
  snd (worker_fetch rt param request ns) (userId_of param)
  = snd (fetch rt request (ns (userId_of param))).
Proof.
  unfold worker_fetch.
  destruct (startsWith (pathname request) (lit "/api/")) eqn:E; cbn [negb fst snd].
  - unfold instance_set. rewrite str_eqb_refl. split; reflexivity.
  - rewrite (outside_api_is_unrouted rt request _ E). split; reflexivity.
Qed.

Lemma unnamed_instance_is_untouched steps ns name :
  (forall rt param request,
     In (rt, param, request) steps -> userId_of param <> name) ->
  worker_fetch_all steps ns name = ns name.
Proof.
  revert ns. induction steps as [ | [[rt param] request] steps IH];
    intros ns Hsteps; cbn [worker_fetch_all]; [ reflexivity | ].
  rewrite IH by (intros; eapply Hsteps; right; eassumption).
  unfold worker_fetch.
  destruct (startsWith (pathname request) (lit "/api/")); cbn [negb snd];
    [ | reflexivity ].
  unfold instance_set.
  destruct (str_eqb name (userId_of param)) eqn:E; [ | reflexivity ].
  apply str_eqb_eq in E. symmetry in E.
  now apply (Hsteps rt param request (or_introl eq_refl)) in E.
Qed.

(** X21.  Users are isolated: whatever requests the Worker has served
    under other, non-empty user ids, a request under the user id [u] is
    answered, and leaves [u]'s instance, exactly as if those requests had
    not been made. *)
Theorem users_do_not_see_each_other steps ns u rt request :
  u <> [] ->
  (forall rt' param request',
     In (rt', param, request') steps ->
     exists p, param = Some p /\ p <> [] /\ p <> u) ->
  fst (worker_fetch rt (Some u) request (worker_fetch_all steps ns))
  = fst (worker_fetch rt (Some u) request ns) /\
  snd (worker_fetch rt (Some u) request (worker_fetch_all steps ns)) u
  = snd (worker_fetch rt (Some u) request ns) u.
Proof.
  intros Hu Hsteps.
  assert (Eu : userId_of (Some u) = u) by (destruct u; [ contradiction | reflexivity ]).
  assert (Hsame : worker_fetch_all steps ns u = ns u).
  { apply unnamed_instance_is_untouched. intros rt' param request' Hin.
    destruct (Hsteps rt' param request' Hin) as (p & -> & Hp & Hpu).
    destruct p; [ contradiction | exact Hpu ]. }
  unfold worker_fetch.
  destruct (startsWith (pathname request) (lit "/api/")); cbn [negb fst snd].
  - rewrite Eu, Hsame. unfold instance_set. rewrite str_eqb_refl.
    split; reflexivity.
  - split; [ reflexivity | exact Hsame ].
Qed.

(** ** Claims C8 and C5: reports at two clock readings *)

Lemma in_last7_same_side state now1 now2 habit :
  (forall l, In l (logs state) -> habitId l = VStr (id habit) ->
             same_side now1 now2 l) ->
  filter (in_last7 (now1 - week_ms) habit) (logs state)
  = filter (in_last7 (now2 - week_ms) habit) (logs state).
Proof.
  intros H. apply filter_ext_in. intros l Hl. unfold in_last7.
  destruct (strict_eq_str (habitId l) (id habit)) eqn:E; [ | reflexivity ].
  apply strict_eq_str_spec in E. specialize (H l Hl E). unfold same_side in H.
  cbn [andb].
  destruct (Z.leb_spec (now1 - week_ms) (timestamp l)),
           (Z.leb_spec (now2 - week_ms) (timestamp l)); try reflexivity; lia.
Qed.

Lemma habit_stat_same_side state now1 now2 habit :
  (forall l, In l (logs state) -> habitId l = VStr (id habit) ->
             same_side now1 now2 l) ->
  habit_stat state (now1 - week_ms) habit = habit_stat state (now2 - week_ms) habit.
Proof.
  intros H. unfold habit_stat. now rewrite (in_last7_same_side _ _ _ _ H).
Qed.

Lemma filter_length_mono {A} (f g : A -> bool) (l : list A) :
  (forall x, In x l -> g x = true -> f x = true) ->
  (List.length (filter g l) <= List.length (filter f l))%nat.
Proof.
  induction l as [ | x l IH]; intros H; simpl; [ lia | ].
  assert (IH' : (List.length (filter g l) <= List.length (filter f l))%nat)
    by (apply IH; intros; apply H; simpl; auto).
  destruct (g x) eqn:Eg.
  - rewrite (H x (or_introl eq_refl) Eg). simpl. lia.
  - destruct (f x); simpl; lia.
Qed.

Lemma filter_same_count {A} (f g : A -> bool) (l : list A) :
  (forall x, In x l -> g x = true -> f x = true) ->
  List.length (filter f l) = List.length (filter g l) ->
  forall x, In x l -> f x = g x.
Proof.
  induction l as [ | a l IH]; intros H Hlen x Hin; [ contradiction | ].
  assert (Hl : forall y, In y l -> g y = true -> f y = true)
    by (intros; apply H; simpl; auto).
  pose proof (filter_length_mono f g l Hl) as Hmono.
  simpl in Hlen.
  destruct (g a) eqn:Eg.
  - rewrite (H a (or_introl eq_refl) Eg) in Hlen. simpl in Hlen.
    destruct Hin as [<- | Hin].
    + now rewrite (H a (or_introl eq_refl) Eg).
    + apply IH; auto.
  - destruct (f a) eqn:Ef; simpl in Hlen; [ lia | ].
    destruct Hin as [<- | Hin]; [ congruence | ].
    apply IH; auto.
Qed.

(** Equal counts at two readings: no log of the habit crossed. *)
Lemma same_count_same_side state now1 now2 habit :
  List.length (filter (in_last7 (now1 - week_ms) habit) (logs state))
  = List.length (filter (in_last7 (now2 - week_ms) habit) (logs state)) ->
  forall l, In l (logs state) -> habitId l = VStr (id habit) ->
            same_side now1 now2 l.
Proof.
  intros Hlen l Hl Hid.
  assert (Hmono : forall a b x, a <= b ->
            in_last7 (b - week_ms) habit x = true ->
            in_last7 (a - week_ms) habit x = true).
  { intros a b x Hab. unfold in_last7. rewrite !andb_true_iff, !Z.leb_le.
    intros [? ?]. split; [ assumption | lia ]. }
  assert (Hpoint : in_last7 (now1 - week_ms) habit l
                   = in_last7 (now2 - week_ms) habit l).
  { destruct (Z.le_ge_cases now1 now2) as [Hle | Hle].
    - apply (filter_same_count _ _ (logs state)); auto.
      intros x _. now apply Hmono.
    - symmetry. apply (filter_same_count _ _ (logs state)); auto.
      intros x _. now apply Hmono. }
  unfold in_last7 in Hpoint. apply strict_eq_str_spec in Hid.
  rewrite Hid in Hpoint. cbn [andb] in Hpoint. unfold same_side.
  destruct (Z.leb_spec (now1 - week_ms) (timestamp l)),
           (Z.leb_spec (now2 - week_ms) (timestamp l));
    try discriminate Hpoint; lia.
Qed.

Lemma map_throwing_same {A B} (f g : A -> option B) xs ys :
  map_throwing f xs = Some ys -> map_throwing g xs = Some ys ->
  forall x, In x xs -> exists y, f x = Some y /\ g x = Some y.
Proof.
  revert ys. induction xs as [ | a xs IH]; intros ys Hf Hg x Hin;
    [ contradiction | ].
  simpl in Hf, Hg.
  destruct (f a) as [y1 | ] eqn:Ef; [ | discriminate Hf ].
  destruct (g a) as [y2 | ] eqn:Eg; [ | discriminate Hg ].
  cbn [obind] in Hf, Hg.
  destruct (map_throwing f xs) as [ys1 | ] eqn:Efs; [ | discriminate Hf ].
  destruct (map_throwing g xs) as [ys2 | ] eqn:Egs; [ | discriminate Hg ].
  cbn [obind] in Hf, Hg. injection Hf as <-. injection Hg as Hy Hys.
  destruct Hin as [<- | Hin].
  - exists y1. split; [ exact Ef | congruence ].
  - subst ys2. apply (IH ys1); auto.
Qed.

Lemma computeStats_same_side state now1 now2 :
  no_log_crosses state now1 now2 ->
  computeStats state now1 = computeStats state now2.
Proof.
  intros H. unfold computeStats. apply map_throwing_ext_in. intros h Hin.
  apply habit_stat_same_side. intros l Hl Hid. apply (H l h Hl Hin Hid).
Qed.

Lemma computeStats_equal_only_if state now1 now2 stats :
  computeStats state now1 = Some stats ->
  computeStats state now2 = Some stats ->
  no_log_crosses state now1 now2.
Proof.
  intros H1 H2 l h Hl Hin Hid.
  destruct (map_throwing_same _ _ _ _ H1 H2 h Hin) as (s & Hs1 & Hs2).
  apply habit_stat_inv in Hs1 as (tpw1 & t1 & _ & _ & E1).
  apply habit_stat_inv in Hs2 as (tpw2 & t2 & _ & _ & E2).
  apply (same_count_same_side state now1 now2 h); auto.
  rewrite E1 in E2. apply (f_equal completedLast7Days) in E2. exact E2.
Qed.

(** Claim C8, as amended.  Getting the state twice with no operation in
    between leaves the world as the first call left it and returns the
    same state both times.  The two answers, stats included, are the same
    whenever no log of a stored habit crosses the lower bound of the 7-day
    window between the two readings of the clock (in particular when both
    read the same instant); and when stats are returned, the answers are
    the same only then. *)
Theorem get_state_twice rt1 rt2 w :
  let first := fetch rt1 (GET "/api/state") w in
  let second := fetch rt2 (GET "/api/state") (snd first) in
  snd second = snd first /\
  response_state (fst second) = response_state (fst first) /\
  (no_log_crosses (stored_state w) (Date_now rt1) (Date_now rt2) ->
   fst second = fst first) /\
  (status (fst first) = 200 -> fst second = fst first ->
   no_log_crosses (stored_state w) (Date_now rt1) (Date_now rt2)).
Proof.
  cbv zeta. rewrite !get_state_run. cbn [fst snd].
  rewrite loaded_idempotent, stored_state_loaded.
  split; [ reflexivity | split; [ | split ] ].
  - destruct (computeStats (stored_state w) (Date_now rt1)) as [s1 | ] eqn:E1;
      destruct (computeStats (stored_state w) (Date_now rt2)) as [s2 | ] eqn:E2;
      try reflexivity.
    + destruct (computeStats_defined _ _ (Date_now rt2) _ E1) as [s2 E]. congruence.
    + destruct (computeStats_defined _ _ (Date_now rt1) _ E2) as [s1 E]. congruence.
  - intros Hsame. now rewrite (computeStats_same_side _ _ _ Hsame).
  - destruct (computeStats (stored_state w) (Date_now rt1)) as [s1 | ] eqn:E1;
      [ | intros Hst; discriminate Hst ].
    intros _ Heq.
    destruct (computeStats (stored_state w) (Date_now rt2)) as [s2 | ] eqn:E2;
      [ | discriminate Heq ].
    injection Heq as ->. apply (computeStats_equal_only_if _ _ _ _ E1 E2).
Qed.

Lemma nth_error_nil_none {A} i : nth_error (@nil A) i = None.
Proof. destruct i; reflexivity. Qed.

(** The stats of the state with [log] appended, read at [now2], against
    the stats of the state before, read at [now1]. *)
Lemma map_habit_stat_one_more state hs' now1 now2 log habit hs before :
  habitId log = VStr (id habit) ->
  now2 - week_ms <= timestamp log ->
  (forall l, In l (logs state) -> habitId l = VStr (id habit) ->
             same_side now1 now2 l) ->
  map_throwing (habit_stat state (now1 - week_ms)) hs = Some before ->
  exists after,
    map_throwing
      (habit_stat {| habits := hs'; logs := logs state ++ [log] |}
         (now2 - week_ms)) hs = Some after /\
    counts_one_more habit hs before after.
Proof.
  intros Hlog Hin Hside. revert before.
  induction hs as [ | h hs IH]; intros before H; simpl in H.
  - injection H as <-. exists []. split; [ reflexivity | ].
    intros i h Hnth. now rewrite nth_error_nil_none in Hnth.
  - destruct (habit_stat state (now1 - week_ms) h) as [s | ] eqn:Es;
      [ | discriminate H ].
    cbn [obind] in H.
    destruct (map_throwing _ hs) as [ys | ] eqn:Eys; [ | discriminate H ].
    cbn [obind] in H. injection H as <-.
    destruct (IH ys eq_refl) as (after & Hafter & Hmore).
    destruct (habit_stat_defined _ _
                {| habits := hs'; logs := logs state ++ [log] |}
                (now2 - week_ms) _ _ Es) as [s' Hs'].
    exists (s' :: after). split.
    + cbn [map_throwing]. rewrite Hs', Hafter. reflexivity.
    + intros [ | i] h0 Hnth Hid; cbn [nth_error] in *.
      * injection Hnth as <-. exists s, s'. repeat split.
        assert (Hsame : habit_stat state (now2 - week_ms) h = Some s).
        { rewrite <- Es. symmetry. apply habit_stat_same_side.
          intros l Hl Hl'. apply Hside; [ exact Hl | ]. now rewrite <- Hid. }
        destruct (habit_stat_after_log state hs' _ h log s Hsame Hin)
          as (s'' & Hs'' & Hcount).
        rewrite Hs' in Hs''. injection Hs'' as <-.
        rewrite Hcount, Hlog. cbn [strict_eq_str].
        rewrite <- Hid, str_eqb_refl. apply Nat.add_1_r.
      * apply (Hmore i h0 Hnth Hid).
Qed.

(** Claim C5, as amended.  Logging a completion for an existing habit
    stores the state with exactly one log appended, all habits and earlier
    logs unchanged.  The [completedLast7Days] of that habit reported after
    the operation, in the operation's own answer and by a later request
    for the state, is exactly one greater than the one reported by a
    request for the state before the operation, given that at the later
    clock reading the window holds the new log's timestamp, and that no
    earlier log of that habit crosses the lower bound of the window
    between the two clock readings. *)
Theorem log_completion_appends rt0 rt rt2 w body habit :
  In habit (habits (stored_state w)) ->
  id habit <> [] ->
  Get body (lit "habitId") = Some (VStr (id habit)) ->
  let log := {| log_id := randomUUID rt;
                habitId := VStr (id habit);
                timestamp := Date_new rt |} in
  let state' := {| habits := habits (stored_state w);
                   logs := logs (stored_state w) ++ [log] |} in
  let logged := fetch rt (POST "/api/log" (Some body)) w in
  snd logged = {| storage := Some state'; AI_calls := AI_calls w |} /\
  forall before,
    response_stats (fst (fetch rt0 (GET "/api/state") w)) = Some before ->
    (Date_now rt - week_ms <= Date_new rt ->
     (forall l, In l (logs (stored_state w)) -> habitId l = VStr (id habit) ->
                same_side (Date_now rt0) (Date_now rt) l) ->
     exists after,
       fst logged = Response_json (LogJson log state' after) /\
       counts_one_more habit (habits (stored_state w)) before after) /\
    (Date_now rt2 - week_ms <= Date_new rt ->
     (forall l, In l (logs (stored_state w)) -> habitId l = VStr (id habit) ->
                same_side (Date_now rt0) (Date_now rt2) l) ->
     exists after,
       fst (fetch rt2 (GET "/api/state") (snd logged))
       = Response_json (StateJson state' after) /\
       counts_one_more habit (habits (stored_state w)) before after).
Proof.
  intros Hin Hid Hget log state' logged.
  assert (Hv : truthy (VStr (id habit)) = true)
    by (destruct (id habit); [ contradiction | reflexivity ]).
  destruct (find_habit_some _ _ Hin) as [h Hfind].
  assert (Hrun : logged
                 = (match computeStats state' (Date_now rt) with
                    | Some stats => Response_json (LogJson log state' stats)
                    | None => Response_text "Internal error" 500
                    end, {| storage := Some state'; AI_calls := AI_calls w |})).
  { subst logged. unfold fetch. rewrite handle_POST_log. run. rewrite Hget. run.
    rewrite Hv. cbn [negb]. run. rewrite loadState_spec. run.
    rewrite Hfind. run. rewrite AI_calls_loaded.
    fold log. fold state'.
    destruct (computeStats state' (Date_now rt)); reflexivity. }
  rewrite Hrun. cbn [fst snd]. split; [ reflexivity | ].
  intros before Hbefore. rewrite get_state_run in Hbefore. cbn [fst] in Hbefore.
  destruct (computeStats (stored_state w) (Date_now rt0)) as [stats0 | ] eqn:E0;
    [ | discriminate Hbefore ].
  injection Hbefore as ->. unfold computeStats in E0.
  split; intros Hwin Hside.
  - destruct (map_habit_stat_one_more (stored_state w) (habits (stored_state w))
                (Date_now rt0) (Date_now rt) log habit _ before
                eq_refl Hwin Hside E0) as (after & Hafter & Hmore).
    exists after. split; [ | exact Hmore ].
    unfold computeStats, state'. cbn [habits]. fold log. now rewrite Hafter.
  - destruct (map_habit_stat_one_more (stored_state w) (habits (stored_state w))
                (Date_now rt0) (Date_now rt2) log habit _ before
                eq_refl Hwin Hside E0) as (after & Hafter & Hmore).
    exists after. split; [ | exact Hmore ].
    rewrite get_state_run. cbn [fst stored_state storage].
    unfold computeStats, state'. cbn [habits]. fold log. now rewrite Hafter.
Qed.

(** The condition of claim C5 on the earlier logs is the exact one: when
    the count reported for the habit after the log was appended is one
    greater than the count before, no earlier log of the habit crossed the
    lower bound of the window between the two readings. *)
Lemma one_more_only_if_no_log_crosses state hs' now1 now2 log habit s s' :
  habitId log = VStr (id habit) ->
  now2 - week_ms <= timestamp log ->
  habit_stat state (now1 - week_ms) habit = Some s ->
  habit_stat {| habits := hs'; logs := logs state ++ [log] |} (now2 - week_ms) habit
  = Some s' ->
  completedLast7Days s' = S (completedLast7Days s) ->
  forall l, In l (logs state) -> habitId l = VStr (id habit) ->
            same_side now1 now2 l.
Proof.
  intros Hlog Hwin Hs Hs' Hcount.
  apply habit_stat_inv in Hs as (tpw & t & _ & _ & ->).
  apply habit_stat_inv in Hs' as (tpw' & t' & _ & _ & ->).
  cbn [completedLast7Days logs] in Hcount.
  rewrite filter_app, length_app in Hcount. cbn [filter] in Hcount.
  unfold in_last7 at 2 in Hcount. rewrite Hlog in Hcount.
  cbn [strict_eq_str] in Hcount. rewrite str_eqb_refl in Hcount.
  replace (now2 - week_ms <=? timestamp log) with true in Hcount
    by (symmetry; apply Z.leb_le; exact Hwin).
  cbn [andb List.length] in Hcount.
  apply same_count_same_side. lia.
Qed.

End Platform.

(** ** Concrete runs *)

Local Open Scope string_scope.

Abbreviation run_fetch :=
  (fetch any_StringToNumber any_ObjectToString any_NumberToString any_toFixed0).
Abbreviation run_computeStats := (computeStats any_StringToNumber any_ObjectToString).

(** The scenario of the specification: a daily habit with target 1 has the
    weekly target 7, and three logs in the last 7 days give the count 3 and
    the rate 3/7, which is 7720456504063707 * 2^-54 = 0.42857... *)
Example scenario_read_three_times :
  run_computeStats
    {| habits := [read_habit];
       logs := [read_log 1699900000000; read_log 1699950000000;
                read_log 1699990000000] |}
    1700000000000
  = Some [ {| stat_habitId := lit "h1";
              stat_name := VStr (lit "Read");
              completedLast7Days := 3;
              targetPerWeek := VNum (Number_of_Z 7);
              completionRate := S754_finite false 7720456504063707 (-54) |} ].
Proof. vm_compute. reflexivity. Qed.

(** Claim C1 fails as stated: a body whose [targetPerPeriod] is -1, not a
    positive number, is accepted (status 200) and the habit is appended to
    the stored sequence, which was empty. *)
Lemma create_habit_accepts_negative_target :
  let body := obj [("name", VStr (lit "Read")); ("frequency", VStr (lit "daily"));
                   ("targetPerPeriod", VNum (Number_of_Z (-1)));
                   ("period", VStr (lit "day"))] in
  let w := world_of defaultState in
  let run := run_fetch (runtime_at 1700000000000)
               (POST "/api/habits" (Some body)) w in
  spec_valid_habit_payload body = false /\
  status (fst run) = 200 /\
  habits (stored_state w) = [] /\
  List.length (habits (stored_state (snd run))) = 1%nat.
Proof. vm_compute. repeat split. Qed.

(** Nor are [frequency] and [period] checked against their enumerations. *)
Lemma create_habit_accepts_unknown_frequency :
  let body := obj [("name", VStr (lit "Read")); ("frequency", VStr (lit "monthly"));
                   ("targetPerPeriod", VNum (Number_of_Z 1));
                   ("period", VStr (lit "year"))] in
  let run := run_fetch (runtime_at 1700000000000)
               (POST "/api/habits" (Some body)) (world_of defaultState) in
  spec_valid_habit_payload body = false /\
  status (fst run) = 200 /\
  List.length (habits (stored_state (snd run))) = 1%nat.
Proof. vm_compute. repeat split. Qed.

Lemma create_habit_rejects_falsy_field_witness :
  run_fetch (runtime_at 1700000000000)
    (POST "/api/habits"
       (Some (obj [("name", VStr []); ("frequency", VStr (lit "daily"));
                   ("targetPerPeriod", VNum (Number_of_Z 1));
                   ("period", VStr (lit "day"))])))
    (world_of defaultState)
  = (Response_text "Invalid habit payload" 400, world_of defaultState).
Proof.
  apply (create_habit_rejects_falsy_field
           any_StringToNumber any_ObjectToString any_NumberToString any_toFixed0
           _ _ _ "name"%string (VStr [])).
  - simpl. auto.
  - reflexivity.
  - reflexivity.
Defined.

(** Claim C2 fails as stated: a log stamped 1 ms after [now] lies outside
    the closed window and is counted all the same. *)
Lemma future_log_is_counted :
  let state := {| habits := [read_habit]; logs := [read_log 1700000000001] |} in
  option_map (map completedLast7Days) (run_computeStats state 1700000000000)
  = Some [1%nat] /\
  spec_completedLast7Days state 1700000000000 read_habit = 0%nat.
Proof. vm_compute. split; reflexivity. Qed.

Lemma completedLast7Days_counts_since_witness :
  let state := {| habits := [read_habit];
                  logs := [read_log 1699990000000; read_log 1600000000000] |} in
  exists stats,
    run_computeStats state 1700000000000 = Some stats /\
    Forall2 (counts_since state 1700000000000) (habits state) stats.
Proof.
  cbv zeta. eexists. split.
  - vm_compute. reflexivity.
  - apply (completedLast7Days_counts_since any_StringToNumber any_ObjectToString).
    vm_compute. reflexivity.
Defined.

Lemma stat_weekly_target_and_rate_witness :
  let state := {| habits := [read_habit];
                  logs := [read_log 1699990000000; read_log 1699950000000] |} in
  exists stats,
    run_computeStats state 1700000000000 = Some stats /\
    Forall2 (weekly_target_and_rate any_StringToNumber any_ObjectToString)
      (habits state) stats.
Proof.
  cbv zeta. eexists. split.
  - vm_compute. reflexivity.
  - apply (stat_weekly_target_and_rate any_StringToNumber any_ObjectToString
             _ 1700000000000).
    + vm_compute. reflexivity.
    + vm_compute. reflexivity.
Defined.

(** Claim C3 fails as stated: on the body null no [habitId] can be read,
    and the answer is the internal failure, status 500, not the validation
    error. *)
Lemma log_completion_on_null_is_no_validation_error :
  Get VNull (lit "habitId") = None /\
  run_fetch (runtime_at 1700000000000) (POST "/api/log" (Some VNull))
    (world_of {| habits := [read_habit]; logs := [] |})
  = (Response_text "Internal error" 500,
     world_of {| habits := [read_habit]; logs := [] |}).
Proof. split; reflexivity. Qed.

Lemma log_completion_rejects_witness :
  run_fetch (runtime_at 1700000000000) (POST "/api/log" (Some VNull)) fresh_world
  = (Response_text "Internal error" 500, fresh_world) /\
  run_fetch (runtime_at 1700000000000) (POST "/api/log" (Some (obj [])))
    (world_of {| habits := [read_habit]; logs := [] |})
  = (Response_text "Missing habitId" 400,
     world_of {| habits := [read_habit]; logs := [] |}) /\
  run_fetch (runtime_at 1700000000000)
    (POST "/api/log" (Some (obj [("habitId", VStr (lit "h2"))]))) fresh_world
  = (Response_text "Habit not found" 404, loaded fresh_world) /\
  logs (stored_state (loaded fresh_world)) = logs (stored_state fresh_world).
Proof.
  split; [ | split ].
  - apply (proj1 (log_completion_rejects
                    any_StringToNumber any_ObjectToString any_NumberToString
                    any_toFixed0 (runtime_at 1700000000000) fresh_world VNull)).
    reflexivity.
  - apply (proj1 (proj2 (log_completion_rejects
                    any_StringToNumber any_ObjectToString any_NumberToString
                    any_toFixed0 (runtime_at 1700000000000)
                    (world_of {| habits := [read_habit]; logs := [] |}) (obj []))
                  VUndefined eq_refl)).
    reflexivity.
  - pose proof (proj2 (proj2 (log_completion_rejects
                    any_StringToNumber any_ObjectToString any_NumberToString
                    any_toFixed0 (runtime_at 1700000000000) fresh_world
                    (obj [("habitId", VStr (lit "h2"))]))
                  (VStr (lit "h2")) eq_refl))
      as H.
    destruct H as (Hrun & _ & Hlogs).
    + reflexivity.
    + intros h [].
    + split; [ exact Hrun | exact Hlogs ].
Defined.

(** Claim C5 fails as stated: with a log that is 7 days old one minute
    after the state was read, a completion logged two minutes after the
    read is stored as a second log, its timestamp inside the window, and
    the count reported is 1 before, 1 in the operation's answer and 1 in a
    request for the state after it. *)
Lemma log_completion_count_can_stay :
  let w := world_of {| habits := [read_habit]; logs := [read_log 1700000000000] |} in
  let before := run_fetch (runtime_at 1700604740000) (GET "/api/state") w in
  let logged := run_fetch (runtime_at 1700604860000)
                  (POST "/api/log" (Some (obj [("habitId", VStr (lit "h1"))])))
                  (snd before) in
  let after := run_fetch (runtime_at 1700604860000) (GET "/api/state") (snd logged) in
  option_map (map completedLast7Days) (response_stats (fst before)) = Some [1%nat] /\
  option_map (map completedLast7Days) (response_stats (fst logged)) = Some [1%nat] /\
  option_map (map completedLast7Days) (response_stats (fst after)) = Some [1%nat] /\
  List.length (logs (stored_state (snd before))) = 1%nat /\
  List.length (logs (stored_state (snd logged))) = 2%nat.
Proof. vm_compute. repeat split. Qed.

Lemma log_completion_appends_witness :
  let w := world_of {| habits := [read_habit]; logs := [read_log 1700000000000] |} in
  let logged := run_fetch (runtime_at 1700000120000)
                  (POST "/api/log" (Some (obj [("habitId", VStr (lit "h1"))]))) w in
  snd logged
  = world_of {| habits := [read_habit];
                logs := [read_log 1700000000000;
                         {| log_id := lit "u1"; habitId := VStr (lit "h1");
                            timestamp := 1700000120000 |}] |} /\
  exists before after,
    response_stats (fst (run_fetch (runtime_at 1700000060000) (GET "/api/state") w))
    = Some before /\
    fst (run_fetch (runtime_at 1700000180000) (GET "/api/state") (snd logged))
    = Response_json
        (StateJson {| habits := [read_habit];
                      logs := [read_log 1700000000000;
                               {| log_id := lit "u1"; habitId := VStr (lit "h1");
                                  timestamp := 1700000120000 |}] |} after) /\
    counts_one_more read_habit [read_habit] before after.
Proof.
  cbv zeta.
  destruct (log_completion_appends
              any_StringToNumber any_ObjectToString any_NumberToString any_toFixed0
              (runtime_at 1700000060000) (runtime_at 1700000120000)
              (runtime_at 1700000180000)
              (world_of {| habits := [read_habit];
                           logs := [read_log 1700000000000] |})
              (obj [("habitId", VStr (lit "h1"))]) read_habit
              (or_introl eq_refl) ltac:(discriminate) eq_refl)
    as [Hstored Hcounts].
  split; [ exact Hstored | ].
  eexists.
  assert (Hbefore :
    response_stats
      (fst (run_fetch (runtime_at 1700000060000) (GET "/api/state")
              (world_of {| habits := [read_habit];
                           logs := [read_log 1700000000000] |})))
    = Some _) by (vm_compute; reflexivity).
  destruct (Hcounts _ Hbefore) as [_ Hlater].
  destruct Hlater as (after & Hafter & Hmore).
  - unfold week_ms. cbn. lia.
  - intros l [<- | []] _. unfold same_side, week_ms. cbn. lia.
  - exists after. split; [ exact Hbefore | split; [ exact Hafter | exact Hmore ] ].
Defined.

(** Claim C6 fails as stated: on the body null no [message] can be read,
    and the answer is the internal failure, status 500, not the validation
    error (the service is not called). *)
Lemma coach_on_null_is_no_validation_error :
  Get VNull (lit "message") = None /\
  run_fetch (runtime_at 1700000000000) (POST "/api/coach" (Some VNull)) fresh_world
  = (Response_text "Internal error" 500, fresh_world).
Proof. split; reflexivity. Qed.

Lemma coach_rejects_blank_message_witness :
  run_fetch (runtime_at 1700000000000) (POST "/api/coach" (Some VNull)) fresh_world
  = (Response_text "Internal error" 500, fresh_world) /\
  run_fetch (runtime_at 1700000000000)
    (POST "/api/coach" (Some (obj [("message", VStr (lit "   "))])))
    fresh_world
  = (Response_text "Missing message" 400, fresh_world).
Proof.
  split.
  - apply (proj1 (proj1 (coach_rejects_blank_message
                    any_StringToNumber any_ObjectToString any_NumberToString
                    any_toFixed0 (runtime_at 1700000000000) fresh_world VNull)
                  eq_refl)).
  - apply (proj1 (proj2 (coach_rejects_blank_message
                    any_StringToNumber any_ObjectToString any_NumberToString
                    any_toFixed0 (runtime_at 1700000000000) fresh_world
                    (obj [("message", VStr (lit "   "))]))
                  (VStr (lit "   ")) eq_refl
                  (or_intror (ex_intro _ (lit "   ") (conj eq_refl eq_refl))))).
Defined.

(** Claim C8 fails as stated: a log made 7 days before the first call is
    inside the window at the first call and outside it 1 ms later, so two
    calls with nothing in between return different stats. *)
Lemma get_state_twice_differs_when_a_log_ages_out :
  let w := world_of {| habits := [read_habit]; logs := [read_log 1700000000000] |} in
  let first := run_fetch (runtime_at 1700604800000) (GET "/api/state") w in
  let second := run_fetch (runtime_at 1700604800001) (GET "/api/state") (snd first) in
  snd first = w /\
  option_map (map completedLast7Days) (response_stats (fst first)) = Some [1%nat] /\
  option_map (map completedLast7Days) (response_stats (fst second)) = Some [0%nat] /\
  fst second <> fst first.
Proof.
  vm_compute. repeat split. intros H. discriminate H.
Qed.

Lemma get_state_twice_witness :
  let w := world_of {| habits := [read_habit]; logs := [read_log 1700000000000] |} in
  let first := run_fetch (runtime_at 1700086400000) (GET "/api/state") w in
  let second := run_fetch (runtime_at 1700090000000) (GET "/api/state") (snd first) in
  fst second = fst first.
Proof.
  cbv zeta.
  apply (proj1 (proj2 (proj2 (get_state_twice
                  any_StringToNumber any_ObjectToString any_NumberToString
                  any_toFixed0 (runtime_at 1700086400000) (runtime_at 1700090000000)
                  (world_of {| habits := [read_habit];
                               logs := [read_log 1700000000000] |}))))).
  intros l h [<- | []] _ _. unfold same_side, week_ms. cbn. lia.
Defined.

(** ** Concrete runs of the further properties *)

Abbreviation read_payload :=
  (obj [("name", VStr (lit "Read")); ("frequency", VStr (lit "daily"));
        ("targetPerPeriod", VNum (Number_of_Z 1)); ("period", VStr (lit "day"))]).

Lemma client_errors_change_nothing_witness :
  state_kept fresh_world
    (snd (run_fetch (runtime_at 1700000000000) (POST "/api/log" (Some (obj [])))
            fresh_world)) /\
  AI_calls (snd (run_fetch (runtime_at 1700000000000)
                   (POST "/api/log" (Some (obj []))) fresh_world))
  = AI_calls fresh_world.
Proof.
  apply (client_errors_change_nothing
           any_StringToNumber any_ObjectToString any_NumberToString any_toFixed0).
  left. reflexivity.
Defined.


Lemma create_habit_appends_witness :
  snd (run_fetch (runtime_at 1700000000000)
         (POST "/api/habits"
            (Some (obj [("name", VStr (lit "Read")); ("frequency", VStr (lit "daily"));
                        ("targetPerPeriod", VNum (Number_of_Z 1));
                        ("period", VStr (lit "day"))])))
         fresh_world)
  = world_of {| habits := [new_habit (runtime_at 1700000000000)
                             (VStr (lit "Read")) (VStr (lit "daily"))
                             (VNum (Number_of_Z 1)) (VStr (lit "day"))];
                logs := [] |}.
Proof.
  rewrite (create_habit_appends
             any_StringToNumber any_ObjectToString any_NumberToString any_toFixed0
             (runtime_at 1700000000000) fresh_world read_payload
             (VStr (lit "Read")) (VStr (lit "daily")) (VNum (Number_of_Z 1))
             (VStr (lit "day")) eq_refl eq_refl eq_refl eq_refl eq_refl eq_refl
             eq_refl eq_refl).
  reflexivity.
Defined.

Lemma unconvertible_target_breaks_get_state_witness :
  let body := obj [("name", VStr (lit "Read")); ("frequency", VStr (lit "daily"));
                   ("targetPerPeriod", obj [("toString", VNum (Number_of_Z 1))]);
                   ("period", VStr (lit "day"))] in
  let created := fetch any_StringToNumber plain_ObjectToString any_NumberToString
                   any_toFixed0 (runtime_at 1700000000000)
                   (POST "/api/habits" (Some body)) fresh_world in
  fst (fetch any_StringToNumber plain_ObjectToString any_NumberToString any_toFixed0
         (runtime_at 1700000000002) (GET "/api/state")
         (fetch_all any_StringToNumber plain_ObjectToString any_NumberToString
            any_toFixed0
            [(runtime_at 1700000000001, GET "/api/state")] (snd created)))
  = internal_error.
Proof.
  cbv zeta.
  apply (unconvertible_target_breaks_get_state
           any_StringToNumber plain_ObjectToString any_NumberToString any_toFixed0
           (runtime_at 1700000000000) fresh_world
           (obj [("name", VStr (lit "Read")); ("frequency", VStr (lit "daily"));
                 ("targetPerPeriod", obj [("toString", VNum (Number_of_Z 1))]);
                 ("period", VStr (lit "day"))])
           (VStr (lit "Read")) (VStr (lit "daily"))
           (obj [("toString", VNum (Number_of_Z 1))]) (VStr (lit "day"))
           [(runtime_at 1700000000001, GET "/api/state")]
           (runtime_at 1700000000002)
           eq_refl eq_refl eq_refl eq_refl eq_refl eq_refl eq_refl eq_refl eq_refl).
Defined.

Lemma other_requests_are_not_found_witness :
  run_fetch (runtime_at 1700000000000) (GET "/api/habits") fresh_world
  = (Response_text "Not found" 404, fresh_world).
Proof.
  apply (other_requests_are_not_found
           any_StringToNumber any_ObjectToString any_NumberToString any_toFixed0).
  - intros [_ H]. vm_compute in H. discriminate H.
  - intros [H _]. vm_compute in H. discriminate H.
Defined.

Lemma coach_asks_the_service_once_witness :
  let w := world_of {| habits := [read_habit]; logs := [read_log 1699990000000] |} in
  let run := run_fetch (runtime_at 1700000000000)
               (POST "/api/coach"
                  (Some (obj [("message", VStr (lit " How am I doing? "))]))) w in
  response_stats (fst run)
  = run_computeStats (stored_state w) 1700000000000 /\
  List.length (AI_calls (snd run)) = 1%nat /\
  storage (snd run) = storage w.
Proof.
  cbv zeta.
  erewrite (coach_asks_the_service_once
              any_StringToNumber any_ObjectToString any_NumberToString any_toFixed0
              (runtime_at 1700000000000)
              (world_of {| habits := [read_habit]; logs := [read_log 1699990000000] |})
              (obj [("message", VStr (lit " How am I doing? "))])
              (lit " How am I doing? ")).
  - vm_compute. repeat split.
  - reflexivity.
  - vm_compute. discriminate.
  - vm_compute. reflexivity.
  - vm_compute. reflexivity.
Defined.

Lemma coach_non_string_message_fails_witness :
  run_fetch (runtime_at 1700000000000)
    (POST "/api/coach" (Some (obj [("message", VNum (Number_of_Z 5))]))) fresh_world
  = (internal_error, fresh_world).
Proof.
  apply (coach_non_string_message_fails
           any_StringToNumber any_ObjectToString any_NumberToString any_toFixed0
           (runtime_at 1700000000000) fresh_world
           (obj [("message", VNum (Number_of_Z 5))])
           (VNum (Number_of_Z 5)) eq_refl eq_refl).
  intros m H. discriminate H.
Defined.

Lemma habit_summary_is_never_empty_witness :
  let state := {| habits := [read_habit]; logs := [read_log 1699990000000] |} in
  exists stats summary,
    run_computeStats state 1700000000000 = Some stats /\
    statsSummary any_ObjectToString any_NumberToString any_toFixed0 stats
    = Some summary /\
    summary <> [].
Proof.
  cbv zeta. eexists. eexists.
  split; [ vm_compute; reflexivity | ].
  split; [ vm_compute; reflexivity | ].
  eapply (habit_summary_is_never_empty
            any_StringToNumber any_ObjectToString any_NumberToString any_toFixed0
            {| habits := [read_habit]; logs := [read_log 1699990000000] |}
            1700000000000).
  - vm_compute. reflexivity.
  - vm_compute. reflexivity.
Defined.

Lemma logging_n_times_appends_n_logs_witness :
  logs (stored_state
          (fetch_all any_StringToNumber any_ObjectToString any_NumberToString
             any_toFixed0
             (map (fun rt => (rt, POST "/api/log"
                                    (Some (obj [("habitId", VStr (lit "h1"))]))))
                [runtime_at 1700000000001; runtime_at 1700000000002])
             (world_of {| habits := [read_habit]; logs := [] |})))
  = [new_log (runtime_at 1700000000001) (VStr (lit "h1"));
     new_log (runtime_at 1700000000002) (VStr (lit "h1"))].
Proof.
  apply (proj2 (logging_n_times_appends_n_logs
                  any_StringToNumber any_ObjectToString any_NumberToString
                  any_toFixed0
                  [runtime_at 1700000000001; runtime_at 1700000000002]
                  (world_of {| habits := [read_habit]; logs := [] |})
                  (obj [("habitId", VStr (lit "h1"))]) read_habit
                  (or_introl eq_refl) ltac:(discriminate) eq_refl)).
Defined.

Lemma created_habit_can_be_logged_witness :
  snd (run_fetch (runtime_at 1700000000001)
         (POST "/api/log" (Some (obj [("habitId", VStr (lit "u1"))])))
         (snd (run_fetch (runtime_at 1700000000000)
                 (POST "/api/habits"
                    (Some (obj [("name", VStr (lit "Read"));
                                ("frequency", VStr (lit "daily"));
                                ("targetPerPeriod", VNum (Number_of_Z 1));
                                ("period", VStr (lit "day"))])))
                 fresh_world)))
  = world_of {| habits := [new_habit (runtime_at 1700000000000)
                             (VStr (lit "Read")) (VStr (lit "daily"))
                             (VNum (Number_of_Z 1)) (VStr (lit "day"))];
                logs := [new_log (runtime_at 1700000000001) (VStr (lit "u1"))] |}.
Proof.
  apply (created_habit_can_be_logged
           any_StringToNumber any_ObjectToString any_NumberToString any_toFixed0
           (runtime_at 1700000000000) (runtime_at 1700000000001) fresh_world
           read_payload (obj [("habitId", VStr (lit "u1"))])
           (VStr (lit "Read")) (VStr (lit "daily")) (VNum (Number_of_Z 1))
           (VStr (lit "day")) eq_refl eq_refl eq_refl eq_refl eq_refl eq_refl
           eq_refl eq_refl ltac:(discriminate) eq_refl).
Defined.

Lemma stats_follow_habits_witness :
  let state := {| habits := [read_habit]; logs := [read_log 1699990000000] |} in
  exists stats,
    run_computeStats state 1700000000000 = Some stats /\
    map stat_habitId stats = map id (habits state) /\
    map stat_name stats = map name (habits state).
Proof.
  cbv zeta. eexists.
  assert (H : run_computeStats
                {| habits := [read_habit]; logs := [read_log 1699990000000] |}
                1700000000000 = Some _) by (vm_compute; reflexivity).
  split; [ exact H | ].
  exact (stats_follow_habits any_StringToNumber any_ObjectToString _ _ _ H).
Defined.

Lemma stats_ignore_old_and_foreign_logs_witness :
  let state := {| habits := [read_habit];
                  logs := [read_log 1600000000000; read_log 1699990000000;
                           {| log_id := lit "l9"; habitId := VStr (lit "gone");
                              timestamp := 1699990000000 |}] |} in
  run_computeStats
    {| habits := habits state;
       logs := filter (fun l => strict_eq_str (habitId l) (lit "h1")
                                && (1699000000000 <=? timestamp l)%Z)
                 (logs state) |} 1700000000000
  = run_computeStats state 1700000000000.
Proof.
  cbv zeta.
  apply (stats_ignore_old_and_foreign_logs any_StringToNumber any_ObjectToString).
  intros l h Hl [<- | []] Hid Hts. cbn [id read_habit] in Hid.
  rewrite Hid. apply andb_true_iff. split; [ reflexivity | ].
  apply Z.leb_le. unfold week_ms in Hts. lia.
Defined.

Lemma no_completion_gives_rate_zero_witness :
  let state := {| habits := [read_habit]; logs := [read_log 1600000000000] |} in
  exists stats,
    run_computeStats state 1700000000000 = Some stats /\
    Forall (fun s => completedLast7Days s = 0%nat ->
                     completionRate s = S754_zero false) stats.
Proof.
  cbv zeta. eexists.
  assert (H : run_computeStats
                {| habits := [read_habit]; logs := [read_log 1600000000000] |}
                1700000000000 = Some _) by (vm_compute; reflexivity).
  split; [ exact H | ].
  exact (no_completion_gives_rate_zero any_StringToNumber any_ObjectToString _ _ _ H).
Defined.

Lemma users_do_not_see_each_other_witness :
  fst (worker_fetch any_StringToNumber any_ObjectToString any_NumberToString
         any_toFixed0 (runtime_at 1700000000001) (Some (lit "bob"))
         (GET "/api/state")
         (worker_fetch_all any_StringToNumber any_ObjectToString any_NumberToString
            any_toFixed0
            [(runtime_at 1700000000000, Some (lit "alice"),
              POST "/api/habits" (Some read_payload))]
            (fun _ => fresh_world)))
  = Response_json (StateJson defaultState []).
Proof.
  eapply eq_trans.
  - apply (proj1 (users_do_not_see_each_other
                    any_StringToNumber any_ObjectToString any_NumberToString
                    any_toFixed0
                    [(runtime_at 1700000000000, Some (lit "alice"),
                      POST "/api/habits" (Some read_payload))]
                    (fun _ => fresh_world) (lit "bob")
                    (runtime_at 1700000000001) (GET "/api/state")
                    ltac:(discriminate)
                    ltac:(intros rt' param request' [H | []];
                          injection H as _ <- _; exists (lit "alice");
                          repeat split; discriminate))).
  - reflexivity.
Defined.

Lemma coach_fails_before_asking_witness :
  let w := world_of {| habits := [ {| id := lit "h1";
                                      name := obj [("toString", VNum (Number_of_Z 1))];
                                      frequency := VStr (lit "daily");
                                      targetPerPeriod := VNum (Number_of_Z 1);
                                      period := VStr (lit "day");
                                      createdAt := 0 |} ];
                       logs := [] |} in
  fetch any_StringToNumber plain_ObjectToString any_NumberToString any_toFixed0
    (runtime_at 1700000000000)
    (POST "/api/coach" (Some (obj [("message", VStr (lit "Hello"))]))) w
  = (internal_error, loaded w).
Proof.
  cbv zeta.
  apply (coach_fails_before_asking
           any_StringToNumber plain_ObjectToString any_NumberToString any_toFixed0
           (runtime_at 1700000000000) _
           (obj [("message", VStr (lit "Hello"))]) (lit "Hello") eq_refl).
  - vm_compute. discriminate.
  - right. eexists. split; vm_compute; reflexivity.
Defined.

Lemma get_state_without_habits_witness :
  run_fetch (runtime_at 1700000000000) (GET "/api/state") fresh_world
  = (Response_json (StateJson defaultState []), world_of defaultState).
Proof.
  apply (proj1 (get_state_without_habits
                  any_StringToNumber any_ObjectToString any_NumberToString
                  any_toFixed0 (runtime_at 1700000000000) fresh_world eq_refl)).
Defined.
